(** * RayTracer.cpp: the frame-orchestration core, embedded and verified

    A shallow embedding of [src/RayTracer.cpp]: the constructor, the frame
    driver ([RayTracer::DrawFrame]), the per-frame [Render] step with its
    benchmark bookkeeping ([CheckAndUpdateBenchmarkState]), scene loading
    ([LoadScene]), the swap-chain hooks and the three input handlers.  The
    destructor and [GetUniformBufferObject] (a pure function of the state
    built on GLM's matrix routines) are left out.

    Conventions.
    - [uint32_t] / [size_t] / [int] values are integers in [Z]; every
      arithmetic operation of the source writes its wrap-around out
      ([u32], [u64], [add32], [sub32]).
    - [double] values (the clock readings and what is computed from them) are
      IEEE 754 binary64 numbers, [spec_float] of the Standard Library, and
      every operation on them is the library's correctly rounded one
      ([SFsub], [SFdiv], [SFmul], [SFltb] at precision 53): a difference of
      two clock readings is the rounded difference, as in the source.  The
      optical parameters ([float]) are only copied from the camera state to
      the settings, never computed with, and are carried as rationals ([Q]).
    - Member functions are state transformers in a small state-and-failure
      monad [M]: an operation ends normally ([Done]), by a C++ exception
      ([Thrown]), or stops at a step that has no defined behaviour
      ([Undefined]: unchecked indexing out of range, a null [unique_ptr]
      dereference, signed overflow, an out-of-range floating to integer
      conversion), a fatal programming error after which nothing more is
      said; [Undefined] carries the object as it was when that step was
      reached.
    - Classes that live in other translation units (the model-view controller,
      the scene registry, the settings comparison, asset types) are taken as
      an interface, the class [Collaborators].  Calls into the device, the
      pipeline and the window are recorded, in order, in the trace [calls_]. *)

From Stdlib Require Import ZArith QArith Bool List String Lia SpecFloat.
Import ListNotations.

Local Open Scope Z_scope.

(** ** Machine arithmetic *)

(** Conversion to [uint32_t]. *)
Definition u32 (z : Z) : Z := z mod 2 ^ 32.

(** Conversion to [size_t] / [uint64_t] (64-bit target). *)
Definition u64 (z : Z) : Z := z mod 2 ^ 64.

(** [a + b] on [uint32_t]. *)
Definition add32 (a b : Z) : Z := u32 (a + b).

(** [a - b] on [uint32_t]: wraps when [b] exceeds [a]. *)
Definition sub32 (a b : Z) : Z := u32 (a - b).

(** Largest [int]. *)
Definition INT_MAX : Z := 2 ^ 31 - 1.

(** [glm::clamp(x, minVal, maxVal)], which GLM defines as
    [min(max(x, minVal), maxVal)]. *)
Definition glm_clamp (x minVal maxVal : Z) : Z := Z.min (Z.max x minVal) maxVal.

(** ** Floating point *)

(** [double]: IEEE 754 binary64. *)
Definition double : Type := spec_float.

(** [float]: IEEE 754 binary32. *)
Definition float : Type := spec_float.

(** [a - b], [a * b], [a / b] and [a > b] on [double]. *)
Definition dsub (a b : double) : double := SFsub 53 1024 a b.
Definition dmul (a b : double) : double := SFmul 53 1024 a b.
Definition ddiv (a b : double) : double := SFdiv 53 1024 a b.
Definition dgtb (a b : double) : bool := SFltb b a.

(** Conversion of an integer to [double] (exact below [2 ^ 53]). *)
Definition double_of_Z (z : Z) : double := binary_normalize 53 1024 z 0 false.

(** [static_cast<float>(d)]. *)
Definition cast_float (d : double) : float :=
  match d with
  | S754_finite s m e => binary_round 24 128 s m e
  | _ => d
  end.

(** The integral part of a [double], toward zero; none for an infinity or a
    NaN. *)
Definition dtrunc (d : double) : option Z :=
  match d with
  | S754_zero _ => Some 0
  | S754_finite s m e =>
      let a := match e with
               | Zneg p => Z.shiftr (Z.pos m) (Z.pos p)
               | _ => Z.shiftl (Z.pos m) e
               end in
      Some (if s then - a else a)
  | _ => None
  end.

(** [static_cast<uint64_t>(d)]: defined only when the truncated value is
    representable. *)
Definition cast_u64 (d : double) : option Z :=
  match dtrunc d with
  | Some t => if (0 <=? t) && (t <? 2 ^ 64) then Some t else None
  | None => None
  end.

Arguments dsub : simpl never.
Arguments dmul : simpl never.
Arguments ddiv : simpl never.
Arguments dgtb : simpl never.
Arguments double_of_Z : simpl never.
Arguments cast_float : simpl never.
Arguments cast_u64 : simpl never.

(** ** GLFW constants used by the key handler *)

Definition GLFW_PRESS : Z := 1.
Definition GLFW_KEY_ESCAPE : Z := 256.
Definition GLFW_KEY_F1 : Z := 290.
Definition GLFW_KEY_F2 : Z := 291.
Definition GLFW_KEY_P : Z := 80.
Definition GLFW_KEY_R : Z := 82.

(** ** Data *)

(** [UserSettings]: the fields this translation unit reads or writes. *)
Record UserSettings : Type := mkUserSettings {
  Benchmark : bool;
  BenchmarkNextScenes : bool;
  BenchmarkMaxTime : Z;
  SceneIndex : Z;               (* int *)
  IsRayTraced : bool;
  AccumulateRays : bool;
  NumberOfSamples : Z;          (* uint32_t *)
  NumberOfBounces : Z;          (* uint32_t *)
  MaxNumberOfSamples : Z;       (* uint32_t *)
  FieldOfView : Q;
  Aperture : Q;
  FocusDistance : Q;
  GammaCorrection : Q;
  ShowSettings : bool;
  ShowOverlay : bool
}.

(** [glm::mat4]. *)
Definition Mat4 : Type := list (list Q).

(** [SceneList::CameraInitialSate] (the source's spelling). *)
Record CameraInitialSate : Type := mkCameraInitialSate {
  ModelView : Mat4;
  CamFieldOfView : Q;
  CamAperture : Q;
  CamFocusDistance : Q;
  CamGammaCorrection : Q;
  HasSky : bool
}.

(** [VkExtent2D]. *)
Record Extent2D : Type := mkExtent2D { width : Z; height : Z }.

(** [Vulkan::WindowConfig]: the fields read by [CheckFramebufferSize]. *)
Record WindowConfig : Type := mkWindowConfig {
  Width : Z;
  Height : Z;
  Fullscreen : bool
}.

(** The window collaborator as this file sees it: its static configuration,
    the current framebuffer size, and whether a close was requested. *)
Record Window : Type := mkWindow {
  Config : WindowConfig;
  FramebufferSize : Extent2D;
  ShouldClose : bool
}.

(** The overlay's answers to the two focus queries. *)
Record UserInterface : Type := mkUserInterface {
  WantsToCaptureKeyboard : bool;
  WantsToCaptureMouse : bool
}.

(** [Statistics], handed to the overlay each frame. *)
Record Statistics : Type := mkStatistics {
  StatFramebufferSize : Extent2D;
  FrameRate : float;
  RayRate : float;
  TotalSamples : Z
}.

(** Calls into the device, pipeline and window layers, in program order. *)
Inductive Call : Type :=
| Device_WaitIdle
| Application_DeleteSwapChain
| DeleteAccelerationStructures
| Assets_Scene_new
| CreateAccelerationStructures
| Application_CreateSwapChain
| Application_DrawFrame
| RayTracing_Application_Render
| Vulkan_Application_Render
| UserInterface_Render (stats : Statistics)
| Window_Close.

(** Lines written to [std::cout]. *)
Inductive ConsoleLine : Type :=
| BlankLine
| StartScene (index : Z) (name : string)
| FpsReport (frames : Z) (totalTime : double).

(** What a [Throw] carries: the fullscreen framebuffer mismatch. *)
Inductive Exception : Type :=
| FramebufferSizeMismatch (requested got : Extent2D).

(** What the host supplies while one frame is processed: the two clock
    readings ([Window().Time()] in [Render] and in the benchmark limit test),
    the swap-chain extent, and the edits the overlay's widgets apply to the
    settings they were constructed over. *)
Record FrameInput : Type := mkFrameInput {
  TimeAtRender : double;
  TimeAtLimitCheck : double;
  SwapChainExtent : Extent2D;
  OverlayEdit : UserSettings -> UserSettings
}.

(** ** Collaborators from other translation units *)

Class Collaborators : Type := {
  Model : Type;
  Texture : Type;
  ModelViewController : Type;
  (** [Assets::Texture::LoadTexture(path, SamplerConfig())] *)
  LoadTexture : string -> Texture;
  (** [ModelViewController::Reset(modelView)] *)
  MVC_Reset : Mat4 -> ModelViewController -> ModelViewController;
  (** [ModelViewController::OnKey], [OnCursorPosition], [OnMouseButton],
      [UpdateCamera(speed, timeDelta)]: the new controller state and the
      returned pose-changed flag. *)
  MVC_OnKey : Z -> Z -> Z -> Z -> ModelViewController -> bool * ModelViewController;
  MVC_OnCursorPosition : double -> double -> ModelViewController -> bool * ModelViewController;
  MVC_OnMouseButton : Z -> Z -> Z -> ModelViewController -> bool * ModelViewController;
  MVC_UpdateCamera : double -> double -> ModelViewController -> bool * ModelViewController;
  (** [UserSettings::RequiresAccumulationReset(prev)] *)
  RequiresAccumulationReset : UserSettings -> UserSettings -> bool;
  (** [SceneList::AllScenes]: name and factory; the factory fills the camera
      state it receives by reference. *)
  AllScenes : list (string *
                    (CameraInitialSate -> list Model * list Texture * CameraInitialSate))
}.

(** ** The state-and-failure monad *)

(** How an operation on a state of type [S] ends: normally with a result, by
    an exception raised in the state [s], or at a step without defined
    behaviour that was reached in the state [s]. *)
Inductive Outcome (S A : Type) : Type :=
| Done (a : A) (s : S)
| Thrown (e : Exception) (s : S)
| Undefined (s : S).

Arguments Done {S A} a s.
Arguments Thrown {S A} e s.
Arguments Undefined {S A} s.

Definition M (S A : Type) : Type := S -> Outcome S A.

Definition ret {S A} (a : A) : M S A := fun s => Done a s.

Definition bind {S A B} (m : M S A) (k : A -> M S B) : M S B :=
  fun s =>
    match m s with
    | Done a s' => k a s'
    | Thrown e s' => Thrown e s'
    | Undefined s' => Undefined s'
    end.

Definition get {S} : M S S := fun s => Done s s.

Definition modify {S} (f : S -> S) : M S unit := fun s => Done tt (f s).

Definition throw {S A} (e : Exception) : M S A := fun s => Thrown e s.

Definition undefined {S A} : M S A := fun s => Undefined s.

Definition when {S} (b : bool) (m : M S unit) : M S unit :=
  if b then m else ret tt.

(** The state an operation ended in, when it ended in a defined way. *)
Definition final_state {S A} (o : Outcome S A) : option S :=
  match o with
  | Done _ s => Some s
  | Thrown _ s => Some s
  | Undefined _ => None
  end.

Notation "x <- m ;; k" := (bind m (fun x => k))
  (at level 61, m at next level, right associativity).
Notation "m ;; k" := (bind m (fun _ => k))
  (at level 61, right associativity).

Section Orchestration.

Context `{Collab : Collaborators}.

(** [Assets::Scene]: what [scene_] owns. *)
Record Scene : Type := mkScene {
  Models : list Model;
  Textures : list Texture
}.

(** The object: the members of [RayTracer], followed by the window it runs in
    and the two output traces. *)
Record RayTracer : Type := mkRayTracer {
  sceneIndex_ : Z;                       (* uint32_t *)
  userSettings_ : UserSettings;
  previousSettings_ : UserSettings;
  cameraInitialSate_ : CameraInitialSate;
  modelViewController_ : ModelViewController;
  scene_ : option Scene;                 (* unique_ptr *)
  userInterface_ : option UserInterface; (* unique_ptr *)
  isWireFrame_ : bool;
  time_ : double;
  totalNumberOfSamples_ : Z;             (* uint32_t *)
  numberOfSamples_ : Z;                  (* uint32_t *)
  resetAccumulation_ : bool;
  sceneInitialTime_ : double;
  periodInitialTime_ : double;
  periodTotalFrames_ : Z;                (* uint32_t *)
  window_ : Window;
  calls_ : list Call;
  console_ : list ConsoleLine
}.

(** Field updates of the object, one per member that is assigned. *)

Definition set_sceneIndex_ (v : Z) (s : RayTracer) : RayTracer :=
  mkRayTracer v (userSettings_ s) (previousSettings_ s) (cameraInitialSate_ s)
    (modelViewController_ s) (scene_ s) (userInterface_ s) (isWireFrame_ s) (time_ s)
    (totalNumberOfSamples_ s) (numberOfSamples_ s) (resetAccumulation_ s)
    (sceneInitialTime_ s) (periodInitialTime_ s) (periodTotalFrames_ s) (window_ s)
    (calls_ s) (console_ s).

Definition set_userSettings_ (v : UserSettings) (s : RayTracer) : RayTracer :=
  mkRayTracer (sceneIndex_ s) v (previousSettings_ s) (cameraInitialSate_ s)
    (modelViewController_ s) (scene_ s) (userInterface_ s) (isWireFrame_ s) (time_ s)
    (totalNumberOfSamples_ s) (numberOfSamples_ s) (resetAccumulation_ s)
    (sceneInitialTime_ s) (periodInitialTime_ s) (periodTotalFrames_ s) (window_ s)
    (calls_ s) (console_ s).

Definition set_previousSettings_ (v : UserSettings) (s : RayTracer) : RayTracer :=
  mkRayTracer (sceneIndex_ s) (userSettings_ s) v (cameraInitialSate_ s)
    (modelViewController_ s) (scene_ s) (userInterface_ s) (isWireFrame_ s) (time_ s)
    (totalNumberOfSamples_ s) (numberOfSamples_ s) (resetAccumulation_ s)
    (sceneInitialTime_ s) (periodInitialTime_ s) (periodTotalFrames_ s) (window_ s)
    (calls_ s) (console_ s).

Definition set_cameraInitialSate_ (v : CameraInitialSate) (s : RayTracer) : RayTracer :=
  mkRayTracer (sceneIndex_ s) (userSettings_ s) (previousSettings_ s) v
    (modelViewController_ s) (scene_ s) (userInterface_ s) (isWireFrame_ s) (time_ s)
    (totalNumberOfSamples_ s) (numberOfSamples_ s) (resetAccumulation_ s)
    (sceneInitialTime_ s) (periodInitialTime_ s) (periodTotalFrames_ s) (window_ s)
    (calls_ s) (console_ s).

Definition set_modelViewController_ (v : ModelViewController) (s : RayTracer) : RayTracer :=
  mkRayTracer (sceneIndex_ s) (userSettings_ s) (previousSettings_ s)
    (cameraInitialSate_ s) v (scene_ s) (userInterface_ s) (isWireFrame_ s) (time_ s)
    (totalNumberOfSamples_ s) (numberOfSamples_ s) (resetAccumulation_ s)
    (sceneInitialTime_ s) (periodInitialTime_ s) (periodTotalFrames_ s) (window_ s)
    (calls_ s) (console_ s).

Definition set_scene_ (v : option Scene) (s : RayTracer) : RayTracer :=
  mkRayTracer (sceneIndex_ s) (userSettings_ s) (previousSettings_ s)
    (cameraInitialSate_ s) (modelViewController_ s) v (userInterface_ s)
    (isWireFrame_ s) (time_ s) (totalNumberOfSamples_ s) (numberOfSamples_ s)
    (resetAccumulation_ s) (sceneInitialTime_ s) (periodInitialTime_ s)
    (periodTotalFrames_ s) (window_ s) (calls_ s) (console_ s).

Definition set_userInterface_ (v : option UserInterface) (s : RayTracer) : RayTracer :=
  mkRayTracer (sceneIndex_ s) (userSettings_ s) (previousSettings_ s)
    (cameraInitialSate_ s) (modelViewController_ s) (scene_ s) v (isWireFrame_ s)
    (time_ s) (totalNumberOfSamples_ s) (numberOfSamples_ s) (resetAccumulation_ s)
    (sceneInitialTime_ s) (periodInitialTime_ s) (periodTotalFrames_ s) (window_ s)
    (calls_ s) (console_ s).

Definition set_isWireFrame_ (v : bool) (s : RayTracer) : RayTracer :=
  mkRayTracer (sceneIndex_ s) (userSettings_ s) (previousSettings_ s)
    (cameraInitialSate_ s) (modelViewController_ s) (scene_ s) (userInterface_ s) v
    (time_ s) (totalNumberOfSamples_ s) (numberOfSamples_ s) (resetAccumulation_ s)
    (sceneInitialTime_ s) (periodInitialTime_ s) (periodTotalFrames_ s) (window_ s)
    (calls_ s) (console_ s).

Definition set_time_ (v : double) (s : RayTracer) : RayTracer :=
  mkRayTracer (sceneIndex_ s) (userSettings_ s) (previousSettings_ s)
    (cameraInitialSate_ s) (modelViewController_ s) (scene_ s) (userInterface_ s)
    (isWireFrame_ s) v (totalNumberOfSamples_ s) (numberOfSamples_ s)
    (resetAccumulation_ s) (sceneInitialTime_ s) (periodInitialTime_ s)
    (periodTotalFrames_ s) (window_ s) (calls_ s) (console_ s).

Definition set_totalNumberOfSamples_ (v : Z) (s : RayTracer) : RayTracer :=
  mkRayTracer (sceneIndex_ s) (userSettings_ s) (previousSettings_ s)
    (cameraInitialSate_ s) (modelViewController_ s) (scene_ s) (userInterface_ s)
    (isWireFrame_ s) (time_ s) v (numberOfSamples_ s) (resetAccumulation_ s)
    (sceneInitialTime_ s) (periodInitialTime_ s) (periodTotalFrames_ s) (window_ s)
    (calls_ s) (console_ s).

Definition set_numberOfSamples_ (v : Z) (s : RayTracer) : RayTracer :=
  mkRayTracer (sceneIndex_ s) (userSettings_ s) (previousSettings_ s)
    (cameraInitialSate_ s) (modelViewController_ s) (scene_ s) (userInterface_ s)
    (isWireFrame_ s) (time_ s) (totalNumberOfSamples_ s) v (resetAccumulation_ s)
    (sceneInitialTime_ s) (periodInitialTime_ s) (periodTotalFrames_ s) (window_ s)
    (calls_ s) (console_ s).

Definition set_resetAccumulation_ (v : bool) (s : RayTracer) : RayTracer :=
  mkRayTracer (sceneIndex_ s) (userSettings_ s) (previousSettings_ s)
    (cameraInitialSate_ s) (modelViewController_ s) (scene_ s) (userInterface_ s)
    (isWireFrame_ s) (time_ s) (totalNumberOfSamples_ s) (numberOfSamples_ s) v
    (sceneInitialTime_ s) (periodInitialTime_ s) (periodTotalFrames_ s) (window_ s)
    (calls_ s) (console_ s).

Definition set_sceneInitialTime_ (v : double) (s : RayTracer) : RayTracer :=
  mkRayTracer (sceneIndex_ s) (userSettings_ s) (previousSettings_ s)
    (cameraInitialSate_ s) (modelViewController_ s) (scene_ s) (userInterface_ s)
    (isWireFrame_ s) (time_ s) (totalNumberOfSamples_ s) (numberOfSamples_ s)
    (resetAccumulation_ s) v (periodInitialTime_ s) (periodTotalFrames_ s) (window_ s)
    (calls_ s) (console_ s).

Definition set_periodInitialTime_ (v : double) (s : RayTracer) : RayTracer :=
  mkRayTracer (sceneIndex_ s) (userSettings_ s) (previousSettings_ s)
    (cameraInitialSate_ s) (modelViewController_ s) (scene_ s) (userInterface_ s)
    (isWireFrame_ s) (time_ s) (totalNumberOfSamples_ s) (numberOfSamples_ s)
    (resetAccumulation_ s) (sceneInitialTime_ s) v (periodTotalFrames_ s) (window_ s)
    (calls_ s) (console_ s).

Definition set_periodTotalFrames_ (v : Z) (s : RayTracer) : RayTracer :=
  mkRayTracer (sceneIndex_ s) (userSettings_ s) (previousSettings_ s)
    (cameraInitialSate_ s) (modelViewController_ s) (scene_ s) (userInterface_ s)
    (isWireFrame_ s) (time_ s) (totalNumberOfSamples_ s) (numberOfSamples_ s)
    (resetAccumulation_ s) (sceneInitialTime_ s) (periodInitialTime_ s) v (window_ s)
    (calls_ s) (console_ s).

Definition set_window_ (v : Window) (s : RayTracer) : RayTracer :=
  mkRayTracer (sceneIndex_ s) (userSettings_ s) (previousSettings_ s)
    (cameraInitialSate_ s) (modelViewController_ s) (scene_ s) (userInterface_ s)
    (isWireFrame_ s) (time_ s) (totalNumberOfSamples_ s) (numberOfSamples_ s)
    (resetAccumulation_ s) (sceneInitialTime_ s) (periodInitialTime_ s)
    (periodTotalFrames_ s) v (calls_ s) (console_ s).

Definition set_calls_ (v : list Call) (s : RayTracer) : RayTracer :=
  mkRayTracer (sceneIndex_ s) (userSettings_ s) (previousSettings_ s)
    (cameraInitialSate_ s) (modelViewController_ s) (scene_ s) (userInterface_ s)
    (isWireFrame_ s) (time_ s) (totalNumberOfSamples_ s) (numberOfSamples_ s)
    (resetAccumulation_ s) (sceneInitialTime_ s) (periodInitialTime_ s)
    (periodTotalFrames_ s) (window_ s) v (console_ s).

Definition set_console_ (v : list ConsoleLine) (s : RayTracer) : RayTracer :=
  mkRayTracer (sceneIndex_ s) (userSettings_ s) (previousSettings_ s)
    (cameraInitialSate_ s) (modelViewController_ s) (scene_ s) (userInterface_ s)
    (isWireFrame_ s) (time_ s) (totalNumberOfSamples_ s) (numberOfSamples_ s)
    (resetAccumulation_ s) (sceneInitialTime_ s) (periodInitialTime_ s)
    (periodTotalFrames_ s) (window_ s) (calls_ s) v.

(** Field updates of [UserSettings]. *)

Definition with_SceneIndex (v : Z) (u : UserSettings) : UserSettings :=
  mkUserSettings (Benchmark u) (BenchmarkNextScenes u) (BenchmarkMaxTime u) v
    (IsRayTraced u) (AccumulateRays u) (NumberOfSamples u) (NumberOfBounces u)
    (MaxNumberOfSamples u) (FieldOfView u) (Aperture u) (FocusDistance u)
    (GammaCorrection u) (ShowSettings u) (ShowOverlay u).

Definition with_IsRayTraced (v : bool) (u : UserSettings) : UserSettings :=
  mkUserSettings (Benchmark u) (BenchmarkNextScenes u) (BenchmarkMaxTime u)
    (SceneIndex u) v (AccumulateRays u) (NumberOfSamples u) (NumberOfBounces u)
    (MaxNumberOfSamples u) (FieldOfView u) (Aperture u) (FocusDistance u)
    (GammaCorrection u) (ShowSettings u) (ShowOverlay u).

Definition with_FieldOfView (v : Q) (u : UserSettings) : UserSettings :=
  mkUserSettings (Benchmark u) (BenchmarkNextScenes u) (BenchmarkMaxTime u)
    (SceneIndex u) (IsRayTraced u) (AccumulateRays u) (NumberOfSamples u)
    (NumberOfBounces u) (MaxNumberOfSamples u) v (Aperture u) (FocusDistance u)
    (GammaCorrection u) (ShowSettings u) (ShowOverlay u).

Definition with_Aperture (v : Q) (u : UserSettings) : UserSettings :=
  mkUserSettings (Benchmark u) (BenchmarkNextScenes u) (BenchmarkMaxTime u)
    (SceneIndex u) (IsRayTraced u) (AccumulateRays u) (NumberOfSamples u)
    (NumberOfBounces u) (MaxNumberOfSamples u) (FieldOfView u) v (FocusDistance u)
    (GammaCorrection u) (ShowSettings u) (ShowOverlay u).

Definition with_FocusDistance (v : Q) (u : UserSettings) : UserSettings :=
  mkUserSettings (Benchmark u) (BenchmarkNextScenes u) (BenchmarkMaxTime u)
    (SceneIndex u) (IsRayTraced u) (AccumulateRays u) (NumberOfSamples u)
    (NumberOfBounces u) (MaxNumberOfSamples u) (FieldOfView u) (Aperture u) v
    (GammaCorrection u) (ShowSettings u) (ShowOverlay u).

Definition with_GammaCorrection (v : Q) (u : UserSettings) : UserSettings :=
  mkUserSettings (Benchmark u) (BenchmarkNextScenes u) (BenchmarkMaxTime u)
    (SceneIndex u) (IsRayTraced u) (AccumulateRays u) (NumberOfSamples u)
    (NumberOfBounces u) (MaxNumberOfSamples u) (FieldOfView u) (Aperture u)
    (FocusDistance u) v (ShowSettings u) (ShowOverlay u).

Definition with_ShowSettings (v : bool) (u : UserSettings) : UserSettings :=
  mkUserSettings (Benchmark u) (BenchmarkNextScenes u) (BenchmarkMaxTime u)
    (SceneIndex u) (IsRayTraced u) (AccumulateRays u) (NumberOfSamples u)
    (NumberOfBounces u) (MaxNumberOfSamples u) (FieldOfView u) (Aperture u)
    (FocusDistance u) (GammaCorrection u) v (ShowOverlay u).

Definition with_ShowOverlay (v : bool) (u : UserSettings) : UserSettings :=
  mkUserSettings (Benchmark u) (BenchmarkNextScenes u) (BenchmarkMaxTime u)
    (SceneIndex u) (IsRayTraced u) (AccumulateRays u) (NumberOfSamples u)
    (NumberOfBounces u) (MaxNumberOfSamples u) (FieldOfView u) (Aperture u)
    (FocusDistance u) (GammaCorrection u) (ShowSettings u) v.

(** Appending to the two traces. *)
Definition call (c : Call) : M RayTracer unit :=
  modify (fun s => set_calls_ (calls_ s ++ [c]) s).

Definition print (l : ConsoleLine) : M RayTracer unit :=
  modify (fun s => set_console_ (console_ s ++ [l]) s).

(** [Window().Close()]. *)
Definition Window_Close_ : M RayTracer unit :=
  call Window_Close ;;
  modify (fun s =>
    set_window_ (mkWindow (Config (window_ s)) (FramebufferSize (window_ s)) true) s).

(** ** The member functions *)

(** [RayTracer::CheckFramebufferSize] (lines 284-300). *)
Definition CheckFramebufferSize : M RayTracer unit :=
  s <- get ;;
  let cfg := Config (window_ s) in
  let fbSize := FramebufferSize (window_ s) in
  if Benchmark (userSettings_ s) && Fullscreen cfg &&
     (negb (width fbSize =? Width cfg) || negb (height fbSize =? Height cfg))
  then throw (FramebufferSizeMismatch (mkExtent2D (Width cfg) (Height cfg)) fbSize)
  else ret tt.

(** [RayTracer::CreateSwapChain] (lines 68-76).  The overlay is rebuilt; a
    fresh overlay holds no focus. *)
Definition CreateSwapChain : M RayTracer unit :=
  call Application_CreateSwapChain ;;
  modify (set_userInterface_ (Some (mkUserInterface false false))) ;;
  modify (set_resetAccumulation_ true) ;;
  CheckFramebufferSize.

(** [RayTracer::DeleteSwapChain] (lines 78-83). *)
Definition DeleteSwapChain : M RayTracer unit :=
  modify (set_userInterface_ None) ;;
  call Application_DeleteSwapChain.

(** [RayTracer::LoadScene] (lines 210-232).  The parameter is a [uint32_t]:
    the argument is converted on entry.  [AllScenes[sceneIndex]] is an
    unchecked subscript, the first thing the function evaluates: outside the
    registry the function stops there. *)
Definition LoadScene (sceneIndex : Z) : M RayTracer unit :=
  let sceneIndex := u32 sceneIndex in
  s <- get ;;
  match nth_error AllScenes (Z.to_nat sceneIndex) with
  | None => undefined
  | Some (_, create) =>
      let '(models, textures, init) := create (cameraInitialSate_ s) in
      modify (set_cameraInitialSate_ init) ;;
      let textures :=
        match textures with
        | [] => textures ++ [LoadTexture "../assets/textures/white.png"]
        | _ :: _ => textures
        end in
      call Assets_Scene_new ;;
      modify (set_scene_ (Some (mkScene models textures))) ;;
      modify (set_sceneIndex_ sceneIndex) ;;
      modify (fun s => set_userSettings_
        (with_GammaCorrection (CamGammaCorrection init)
          (with_FocusDistance (CamFocusDistance init)
            (with_Aperture (CamAperture init)
              (with_FieldOfView (CamFieldOfView init) (userSettings_ s))))) s) ;;
      modify (fun s => set_modelViewController_
        (MVC_Reset (ModelView init) (modelViewController_ s)) s) ;;
      modify (set_periodTotalFrames_ 0) ;;
      modify (set_resetAccumulation_ true)
  end.

(** [RayTracer::OnDeviceSet] (lines 60-66), after the base class hook. *)
Definition OnDeviceSet : M RayTracer unit :=
  s <- get ;;
  LoadScene (SceneIndex (userSettings_ s)) ;;
  call CreateAccelerationStructures.

(** "Initialise scene benchmark timers" (lines 241-248). *)
Definition InitialiseSceneTimers : M RayTracer unit :=
  s <- get ;;
  when (periodTotalFrames_ s =? 0)
    (print BlankLine ;;
     match nth_error AllScenes (Z.to_nat (sceneIndex_ s)) with
     | None => undefined
     | Some (name, _) => print (StartScene (sceneIndex_ s) name)
     end ;;
     modify (fun s => set_sceneInitialTime_ (time_ s) s) ;;
     modify (fun s => set_periodInitialTime_ (time_ s) s)).

(** "Print out the frame rate at regular intervals" (lines 250-264).  The two
    conversions are evaluated only when [periodTotalFrames_ != 0]. *)
Definition ReportFrameRate (prevTime : double) : M RayTracer unit :=
  s <- get ;;
  let period : double := double_of_Z 5 in
  let prevTotalTime := dsub prevTime (periodInitialTime_ s) in
  let totalTime := dsub (time_ s) (periodInitialTime_ s) in
  (if periodTotalFrames_ s =? 0 then ret tt
   else
     match cast_u64 (ddiv prevTotalTime period), cast_u64 (ddiv totalTime period) with
     | Some a, Some b =>
         when (negb (a =? b))
           (print (FpsReport (periodTotalFrames_ s) totalTime) ;;
            modify (fun s => set_periodInitialTime_ (time_ s) s) ;;
            modify (set_periodTotalFrames_ 0))
     | _, _ => undefined
     end) ;;
  modify (fun s => set_periodTotalFrames_ (add32 (periodTotalFrames_ s) 1) s).

(** The test that closes the window rather than moving on (line 273). *)
Definition closesAfterScene (u : UserSettings) : bool :=
  negb (BenchmarkNextScenes u) ||
  (u64 (SceneIndex u) =? u64 (Z.of_nat (List.length AllScenes) - 1)).

(** [timeLimitReached] and [sampleLimitReached] (lines 268-269); [now] is the
    clock reading taken there, and the limit is converted to [double] for the
    comparison. *)
Definition timeLimitReached (now : double) (s : RayTracer) : bool :=
  negb (periodTotalFrames_ s =? 0) &&
  dgtb (dsub now (sceneInitialTime_ s))
       (double_of_Z (BenchmarkMaxTime (userSettings_ s))).

Definition sampleLimitReached (s : RayTracer) : bool :=
  numberOfSamples_ s =? 0.

(** "Bail out from the scene if we've reached the time or sample limit"
    (lines 266-281). *)
Definition CheckSceneLimits (now : double) : M RayTracer unit :=
  s <- get ;;
  when (timeLimitReached now s || sampleLimitReached s)
    (when (closesAfterScene (userSettings_ s)) Window_Close_ ;;
     print BlankLine ;;
     s <- get ;;
     if SceneIndex (userSettings_ s) =? INT_MAX then undefined
     else modify (set_userSettings_
            (with_SceneIndex (SceneIndex (userSettings_ s) + 1) (userSettings_ s)))).

(** [RayTracer::CheckAndUpdateBenchmarkState] (lines 234-282). *)
Definition CheckAndUpdateBenchmarkState (prevTime now : double) : M RayTracer unit :=
  s <- get ;;
  if negb (Benchmark (userSettings_ s)) then ret tt
  else
    InitialiseSceneTimers ;;
    ReportFrameRate prevTime ;;
    CheckSceneLimits now.

(** The statistics of lines 136-149, handed to the overlay.  The two rates
    are computed in [double] and converted to [float]; [Statistics stats = {}]
    leaves a rate that is not assigned at zero. *)
Definition frameStatistics (inp : FrameInput) (timeDelta : double) (s : RayTracer)
  : Statistics :=
  let extent := SwapChainExtent inp in
  mkStatistics
    (FramebufferSize (window_ s))
    (cast_float (ddiv (double_of_Z 1) timeDelta))
    (if IsRayTraced (userSettings_ s)
     then cast_float
            (ddiv (dmul (double_of_Z (u32 (width extent * height extent)))
                        (double_of_Z (numberOfSamples_ s)))
                  (dmul timeDelta (double_of_Z 1000000000)))
     else S754_zero false)
    (if IsRayTraced (userSettings_ s) then totalNumberOfSamples_ s else 0).

(** [RayTracer::Render] (lines 117-152). *)
Definition Render (inp : FrameInput) : M RayTracer unit :=
  s <- get ;;
  let prevTime := time_ s in
  modify (set_time_ (TimeAtRender inp)) ;;
  let timeDelta := dsub (TimeAtRender inp) prevTime in
  modify (fun s =>
    let r := MVC_UpdateCamera (double_of_Z 10) timeDelta (modelViewController_ s) in
    set_resetAccumulation_ (fst r) (set_modelViewController_ (snd r) s)) ;;
  CheckAndUpdateBenchmarkState prevTime (TimeAtLimitCheck inp) ;;
  s <- get ;;
  call (if IsRayTraced (userSettings_ s)
        then RayTracing_Application_Render
        else Vulkan_Application_Render) ;;
  s <- get ;;
  match userInterface_ s with
  | None => undefined
  | Some _ =>
      call (UserInterface_Render (frameStatistics inp timeDelta s)) ;;
      modify (fun s => set_userSettings_ (OverlayEdit inp (userSettings_ s)) s)
  end.

(** Modelled from the spec: [Vulkan::Application::DrawFrame] belongs to the
    base class, whose source is not part of this translation unit.  Following
    section 4.5, the frame continues with steps (4) to (7), which are
    [RayTracer::Render]. *)
Definition Application_DrawFrame_ (inp : FrameInput) : M RayTracer unit :=
  call Application_DrawFrame ;;
  Render inp.

(** "Check if the accumulation buffer needs to be reset" (lines 99-106). *)
Definition needsAccumulationReset (s : RayTracer) : bool :=
  resetAccumulation_ s ||
  RequiresAccumulationReset (userSettings_ s) (previousSettings_ s) ||
  negb (AccumulateRays (userSettings_ s)).

Definition CheckAccumulationReset : M RayTracer unit :=
  s <- get ;;
  when (needsAccumulationReset s)
    (modify (set_totalNumberOfSamples_ 0) ;;
     modify (set_resetAccumulation_ false)).

(** "Keep track of our sample count" (lines 110-112). *)
Definition samplesForFrame (s : RayTracer) : Z :=
  glm_clamp
    (sub32 (MaxNumberOfSamples (userSettings_ s)) (totalNumberOfSamples_ s))
    0
    (NumberOfSamples (userSettings_ s)).

Definition UpdateSampleCount : M RayTracer unit :=
  modify (fun s => set_numberOfSamples_ (samplesForFrame s) s) ;;
  modify (fun s => set_totalNumberOfSamples_
            (add32 (totalNumberOfSamples_ s) (numberOfSamples_ s)) s).

(** The scene-change test of line 88. *)
Definition sceneChanged (s : RayTracer) : bool :=
  negb (sceneIndex_ s =? u32 (SceneIndex (userSettings_ s))).

(** [RayTracer::DrawFrame] (lines 85-115). *)
Definition DrawFrame (inp : FrameInput) : M RayTracer unit :=
  s <- get ;;
  if sceneChanged s then
    call Device_WaitIdle ;;
    DeleteSwapChain ;;
    call DeleteAccelerationStructures ;;
    LoadScene (SceneIndex (userSettings_ s)) ;;
    call CreateAccelerationStructures ;;
    CreateSwapChain
  else
    CheckAccumulationReset ;;
    modify (fun s => set_previousSettings_ (userSettings_ s) s) ;;
    UpdateSampleCount ;;
    Application_DrawFrame_ inp.

(** [RayTracer::OnKey] (lines 154-183). *)
Definition OnKey (key scancode action mods : Z) : M RayTracer unit :=
  s <- get ;;
  match userInterface_ s with
  | None => undefined
  | Some ui =>
      if WantsToCaptureKeyboard ui then ret tt
      else
        when (action =? GLFW_PRESS)
          (when (key =? GLFW_KEY_ESCAPE) Window_Close_ ;;
           s <- get ;;
           when (negb (Benchmark (userSettings_ s)))
             (if key =? GLFW_KEY_F1 then
                modify (fun s => set_userSettings_
                  (with_ShowSettings (negb (ShowSettings (userSettings_ s)))
                     (userSettings_ s)) s)
              else if key =? GLFW_KEY_F2 then
                modify (fun s => set_userSettings_
                  (with_ShowOverlay (negb (ShowOverlay (userSettings_ s)))
                     (userSettings_ s)) s)
              else if key =? GLFW_KEY_R then
                modify (fun s => set_userSettings_
                  (with_IsRayTraced (negb (IsRayTraced (userSettings_ s)))
                     (userSettings_ s)) s)
              else if key =? GLFW_KEY_P then
                modify (fun s => set_isWireFrame_ (negb (isWireFrame_ s)) s)
              else ret tt)) ;;
        modify (fun s =>
          let r := MVC_OnKey key scancode action mods (modelViewController_ s) in
          set_resetAccumulation_ (resetAccumulation_ s || fst r)
            (set_modelViewController_ (snd r) s))
  end.

(** [RayTracer::OnCursorPosition] (lines 185-196).  The disjunction short
    circuits: the overlay is not consulted in benchmark mode. *)
Definition OnCursorPosition (xpos ypos : double) : M RayTracer unit :=
  s <- get ;;
  if Benchmark (userSettings_ s) then ret tt
  else
    match userInterface_ s with
    | None => undefined
    | Some ui =>
        if WantsToCaptureKeyboard ui || WantsToCaptureMouse ui then ret tt
        else
          modify (fun s =>
            let r := MVC_OnCursorPosition xpos ypos (modelViewController_ s) in
            set_resetAccumulation_ (resetAccumulation_ s || fst r)
              (set_modelViewController_ (snd r) s))
    end.

(** [RayTracer::OnMouseButton] (lines 198-208). *)
Definition OnMouseButton (button action mods : Z) : M RayTracer unit :=
  s <- get ;;
  if Benchmark (userSettings_ s) then ret tt
  else
    match userInterface_ s with
    | None => undefined
    | Some ui =>
        if WantsToCaptureMouse ui then ret tt
        else
          modify (fun s =>
            let r := MVC_OnMouseButton button action mods (modelViewController_ s) in
            set_resetAccumulation_ (resetAccumulation_ s || fst r)
              (set_modelViewController_ (snd r) s))
    end.

(** ** Runs of frames *)

(** Consecutive frames, each with its own host input. *)
Fixpoint DrawFrames (inputs : list FrameInput) : M RayTracer unit :=
  match inputs with
  | [] => ret tt
  | inp :: rest => DrawFrame inp ;; DrawFrames rest
  end.

(** Number of frame-rate reports on the console. *)
Fixpoint reports (l : list ConsoleLine) : nat :=
  match l with
  | [] => O
  | FpsReport _ _ :: l' => S (reports l')
  | _ :: l' => reports l'
  end.

(** Number of close requests in a trace. *)
Fixpoint closeRequests (l : list Call) : nat :=
  match l with
  | [] => O
  | Window_Close :: l' => S (closeRequests l')
  | _ :: l' => closeRequests l'
  end.

(** Modelled from the spec: the host loop ([Window::Run]) is not part of this
    translation unit.  By sections 5 and 6 a close is requested, not forced:
    the frame in progress finishes and no further frame is driven. *)
Fixpoint Run (inputs : list FrameInput) : M RayTracer unit :=
  match inputs with
  | [] => ret tt
  | inp :: rest =>
      s <- get ;;
      if ShouldClose (window_ s) then ret tt
      else DrawFrame inp ;; Run rest
  end.

End Orchestration.

Arguments RayTracer {Collab}.
Arguments Scene {Collab}.

(** ** Reasoning vocabulary *)

(** [m] leaves the observation [f] of the object unchanged, however it ends. *)
Definition keeps `{Collaborators} {X A : Type} (f : RayTracer -> X)
  (m : M RayTracer A) : Prop :=
  forall s s', final_state (m s) = Some s' -> f s' = f s.

(** Reports on the console, as an integer. *)
Definition reportCount `{Collaborators} (s : RayTracer) : Z :=
  Z.of_nat (reports (console_ s)).

(** The sample counters, as a pair. *)
Definition samples `{Collaborators} (s : RayTracer) : Z * Z :=
  (totalNumberOfSamples_ s, numberOfSamples_ s).

(** The settings, the call trace, the window and the per-frame sample count:
    what the limit test of the benchmark reads or writes. *)
Definition limitInputs `{Collaborators} (s : RayTracer)
  : UserSettings * list Call * Window * Z :=
  (userSettings_ s, calls_ s, window_ s, numberOfSamples_ s).

(** The period state: clock, window start, frames in the window, reports. *)
Definition periodFields `{Collaborators} (s : RayTracer) : double * double * Z * Z :=
  (time_ s, periodInitialTime_ s, periodTotalFrames_ s, reportCount s).

(** The calls a step added to the trace. *)
Definition newCalls `{Collaborators} (before after : RayTracer) (l : list Call) : Prop :=
  calls_ after = calls_ before ++ l.

(** ** A concrete instance, to run the code *)

(** A small controller in the shape section 4.4 describes: it latches the
    "moving forward" key (W) and reports a pose change while it is held. *)
Record ExampleController : Type := mkExampleController {
  pose : Mat4;
  movingForward : bool
}.

Definition GLFW_KEY_W : Z := 87.
Definition GLFW_RELEASE : Z := 0.

Definition example_OnKey (key scancode action mods : Z) (c : ExampleController)
  : bool * ExampleController :=
  if key =? GLFW_KEY_W
  then (true, mkExampleController (pose c) (negb (action =? GLFW_RELEASE)))
  else (false, c).

(** Modelled from the spec: [UserSettings::RequiresAccumulationReset] is
    declared in a header that is not part of this translation unit.  Section
    4.1 names the fields whose change invalidates the accumulated image
    (everything but the pure UI toggles); the comparison below is over
    those: some field that affects the rendered image differs. *)
Definition imageSettingsDiffer (cur prev : UserSettings) : bool :=
  negb (Bool.eqb (IsRayTraced cur) (IsRayTraced prev)) ||
  negb (Bool.eqb (AccumulateRays cur) (AccumulateRays prev)) ||
  negb (NumberOfBounces cur =? NumberOfBounces prev) ||
  negb (Qeq_bool (FieldOfView cur) (FieldOfView prev)) ||
  negb (Qeq_bool (Aperture cur) (Aperture prev)) ||
  negb (Qeq_bool (FocusDistance cur) (FocusDistance prev)) ||
  negb (Qeq_bool (GammaCorrection cur) (GammaCorrection prev)) ||
  negb (SceneIndex cur =? SceneIndex prev).

(** A scene factory that produces one model, no texture, and a fixed camera. *)
Definition exampleFactory (name : string) (init : CameraInitialSate)
  : list string * list string * CameraInitialSate :=
  ([name], [], mkCameraInitialSate [] 40 (1 # 10) 10 2 true).

Definition exampleCollaborators (names : list string) : Collaborators := {|
  Model := string;
  Texture := string;
  ModelViewController := ExampleController;
  LoadTexture := fun path => path;
  MVC_Reset := fun m _ => mkExampleController m false;
  MVC_OnKey := example_OnKey;
  MVC_OnCursorPosition := fun _ _ c => (false, c);
  MVC_OnMouseButton := fun _ _ _ c => (false, c);
  MVC_UpdateCamera := fun _ _ c => (movingForward c, c);
  RequiresAccumulationReset := imageSettingsDiffer;
  AllScenes := map (fun n => (n, exampleFactory n)) names
|}.

Definition exampleSettings (benchmark : bool) (maxTime maxSamples samples : Z)
  : UserSettings :=
  mkUserSettings benchmark false maxTime 0 true true samples 4 maxSamples 40 (1 # 10) 10 2
    false false.

Definition exampleWindow : Window :=
  mkWindow (mkWindowConfig 1280 720 false) (mkExtent2D 1280 720) false.

(** The object right after the first scene was loaded and the swap chain
    built, with [total] samples accumulated so far. *)
Definition exampleState (names : list string) (u : UserSettings) (total : Z)
  : @RayTracer (exampleCollaborators names) :=
  @mkRayTracer (exampleCollaborators names)
    0 u u (mkCameraInitialSate [] 40 (1 # 10) 10 2 true)
    (mkExampleController [] false)
    (Some (@mkScene (exampleCollaborators names) ["Cube"%string] ["white"%string]))
    (Some (mkUserInterface false false))
    false (S754_zero false) total 0 false (S754_zero false) (S754_zero false) 0
    exampleWindow [] [].

(** A frame whose two clock readings are [t], the overlay leaving the
    settings alone. *)
Definition frameAtClock (t : double) : FrameInput :=
  mkFrameInput t t (mkExtent2D 1280 720) (fun u => u).

(** A frame at the whole clock reading [t]. *)
Definition frameAt (t : Z) : FrameInput := frameAtClock (double_of_Z t).

(** Frames at [t0], [t0 + dt], ... ([n] of them). *)
Fixpoint framesEvery (dt : Z) (n : nat) (t0 : Z) : list FrameInput :=
  match n with
  | O => []
  | S n' => frameAt t0 :: framesEvery dt n' (t0 + dt)
  end.

(** The [double] nearest to the decimal fraction [n / 10]. *)
Definition tenths (n : Z) : double := ddiv (double_of_Z n) (double_of_Z 10).

(** ** Runs without reset *)

(** A frame that starts with no scene change and no reset condition, under the
    given sample limits. *)
Definition steadyFrame `{Collaborators} (maxTotal perFrame : Z) (s : RayTracer) : Prop :=
  sceneChanged s = false /\
  needsAccumulationReset s = false /\
  MaxNumberOfSamples (userSettings_ s) = maxTotal /\
  NumberOfSamples (userSettings_ s) = perFrame.

(** A run in which every frame is such a frame and ends normally. *)
Fixpoint quietRun `{Collaborators} (maxTotal perFrame : Z) (inputs : list FrameInput)
  (s : RayTracer) : Prop :=
  match inputs with
  | [] => True
  | inp :: rest =>
      steadyFrame maxTotal perFrame s /\
      exists s1, DrawFrame inp s = Done tt s1 /\ quietRun maxTotal perFrame rest s1
  end.

(** The calls of a scene change, in the order of lines 90-95. *)
Definition sceneChangeCalls : list Call :=
  [ Device_WaitIdle;
    Application_DeleteSwapChain;
    DeleteAccelerationStructures;
    Assets_Scene_new;
    CreateAccelerationStructures;
    Application_CreateSwapChain ].

(** The registry has an entry at the index the settings request. *)
Definition requestedSceneExists `{Collaborators} (s : RayTracer) : Prop :=
  (Z.to_nat (u32 (SceneIndex (userSettings_ s))) < List.length AllScenes)%nat.

(** Calls that hand drawing to the base class or the pipeline. *)
Definition isRenderCall (c : Call) : bool :=
  match c with
  | Application_DrawFrame
  | RayTracing_Application_Render
  | Vulkan_Application_Render
  | UserInterface_Render _ => true
  | _ => false
  end.

(** Settings that ask for the second scene with accumulation switched off. *)
Definition secondSceneSettings : UserSettings :=
  mkUserSettings false false 5 1 true false 10 4 100 40 (1 # 10) 10 2 false false.


(** The object with the first of two scenes loaded while the settings ask for
    the second one; 50 samples are accumulated and accumulation is off. *)
Definition sceneSwitchState : @RayTracer (exampleCollaborators ["Cube"; "Cornell"]%string) :=
  exampleState ["Cube"; "Cornell"]%string secondSceneSettings 50.

(** The tail of [Render] after the camera update (lines 127-151). *)
Definition RenderAfterCamera `{Collaborators} (inp : FrameInput) (prevTime : double)
  : M RayTracer unit :=
  CheckAndUpdateBenchmarkState prevTime (TimeAtLimitCheck inp) ;;
  s <- get ;;
  call (if IsRayTraced (userSettings_ s)
        then RayTracing_Application_Render
        else Vulkan_Application_Render) ;;
  s <- get ;;
  match userInterface_ s with
  | None => undefined
  | Some _ =>
      call (UserInterface_Render
              (frameStatistics inp (dsub (TimeAtRender inp) prevTime) s)) ;;
      modify (fun s => set_userSettings_ (OverlayEdit inp (userSettings_ s)) s)
  end.

(** The state [Render] is in right after the camera update (line 125). *)
Definition afterCameraUpdate `{Collaborators} (inp : FrameInput) (s : RayTracer)
  : RayTracer :=
  let s1 := set_time_ (TimeAtRender inp) s in
  let r := MVC_UpdateCamera (double_of_Z 10) (dsub (TimeAtRender inp) (time_ s))
             (modelViewController_ s1) in
  set_resetAccumulation_ (fst r) (set_modelViewController_ (snd r) s1).


(** 100 samples accumulated, after which the maximum was lowered to 50. *)
Definition loweredMaximumState : @RayTracer (exampleCollaborators ["Cube"%string]) :=
  exampleState ["Cube"%string] (exampleSettings false 5 50 10) 100.

(** A reset is pending, nothing is accumulated and the camera stands still. *)
Definition pendingResetState : @RayTracer (exampleCollaborators ["Cube"%string]) :=
  set_resetAccumulation_ true
    (exampleState ["Cube"%string] (exampleSettings false 5 100 10) 0).

(** Benchmark mode, overlay without focus, camera at rest. *)
Definition benchmarkState : @RayTracer (exampleCollaborators ["Cube"%string]) :=
  exampleState ["Cube"%string] (exampleSettings true 5 100 10) 0.

(** The timer and period bookkeeping that precedes the limit test in
    [CheckAndUpdateBenchmarkState] (lines 241-264). *)
Definition BenchmarkTimers `{Collaborators} (prevTime : double) : M RayTracer unit :=
  InitialiseSceneTimers ;; ReportFrameRate prevTime.

(** The scene limit test as the code evaluates it (line 271). *)
Definition sceneLimitReached `{Collaborators} (now : double) (s : RayTracer) : bool :=
  timeLimitReached now s || sampleLimitReached s.

(** A single-scene benchmark, three frames in (clock at 0, 2, 4), with the
    clock of the fourth frame (6) already latched by [Render]. *)
Definition benchmarkFourthFrame : @RayTracer (exampleCollaborators ["Cube"%string]) :=
  match final_state (DrawFrames (framesEvery 2 3 0) benchmarkState) with
  | Some s => set_time_ (double_of_Z 6) s
  | None => benchmarkState
  end.

(** The boundary test of line 256, as the claim words it: the integer
    division by the period length of the window time at the previous frame
    against that at the current frame, both measured from the start of the
    window; none when a conversion to [uint64_t] is not defined. *)
Definition boundaryCrossed (start prevTime now : double) : option bool :=
  match cast_u64 (ddiv (dsub prevTime start) (double_of_Z 5)),
        cast_u64 (ddiv (dsub now start) (double_of_Z 5)) with
  | Some a, Some b => Some (negb (a =? b))
  | _, _ => None
  end.

(** The reports of a sequence of benchmark frames, counted from the clock
    readings alone: the window that started at [start] has [frames] frames so
    far and the previous frame was at [prev].  A frame that finds no frame
    counted opens a window at its own reading; a frame at which the boundary
    test holds is reported and opens the next window at its own reading. *)
Fixpoint windowReports (start : double) (frames : Z) (prev : double)
  (clocks : list double) : nat :=
  match clocks with
  | [] => O
  | t :: rest =>
      if frames =? 0 then windowReports t 1 t rest
      else
        match boundaryCrossed start prev t with
        | Some true => S (windowReports t 1 t rest)
        | _ => windowReports start (add32 frames 1) t rest
        end
  end.

(** A run of benchmark frames: every frame starts in benchmark mode without a
    scene change. *)
Fixpoint benchmarkRun `{Collaborators} (inputs : list FrameInput) (s : RayTracer)
  : Prop :=
  match inputs with
  | [] => True
  | inp :: rest =>
      sceneChanged s = false /\
      Benchmark (userSettings_ s) = true /\
      match final_state (DrawFrame inp s) with
      | Some s1 => benchmarkRun rest s1
      | None => True
      end
  end.

(** A benchmark over one scene with a time limit of 1000 and a sample budget
    that outlasts the run. *)
Definition longBenchmarkState : @RayTracer (exampleCollaborators ["Cube"%string]) :=
  exampleState ["Cube"%string] (exampleSettings true 1000 100000 8) 0.

(** ** The rest of the translation unit *)

(** The test of line 290 on given settings and window. *)
Definition framebufferMismatch (u : UserSettings) (w : Window) : bool :=
  Benchmark u && Fullscreen (Config w) &&
  (negb (width (FramebufferSize w) =? Width (Config w)) ||
   negb (height (FramebufferSize w) =? Height (Config w))).

(** [RayTracer::RayTracer] (lines 26-31), run on the object as the base-class
    constructor and the default member initialisers leave it: the settings
    are stored, then the framebuffer is checked. *)
Definition RayTracer_ctor `{Collaborators} (userSettings : UserSettings)
  : M RayTracer unit :=
  modify (set_userSettings_ userSettings) ;;
  CheckFramebufferSize.

(** What the window delivers to the object: a frame to draw, or one of the
    three input callbacks of lines 154-208. *)
Inductive HostEvent : Type :=
| FrameEvent (inp : FrameInput)
| KeyEvent (key scancode action mods : Z)
| CursorEvent (xpos ypos : double)
| MouseButtonEvent (button action mods : Z).

Definition Dispatch `{Collaborators} (ev : HostEvent) : M RayTracer unit :=
  match ev with
  | FrameEvent inp => DrawFrame inp
  | KeyEvent key scancode action mods => OnKey key scancode action mods
  | CursorEvent xpos ypos => OnCursorPosition xpos ypos
  | MouseButtonEvent button action mods => OnMouseButton button action mods
  end.

(** Any sequence of frames and input callbacks. *)
Fixpoint Deliver `{Collaborators} (events : list HostEvent) : M RayTracer unit :=
  match events with
  | [] => ret tt
  | ev :: rest => Dispatch ev ;; Deliver rest
  end.

(** The overlay edit of an event, the identity for input callbacks. *)
Definition editOf (ev : HostEvent) : UserSettings -> UserSettings :=
  match ev with
  | FrameEvent inp => OverlayEdit inp
  | _ => fun u => u
  end.

(** The two sample settings hold [uint32_t] values. *)
Definition sampleSettingsTyped (u : UserSettings) : Prop :=
  0 <= NumberOfSamples u < 2 ^ 32 /\ 0 <= MaxNumberOfSamples u < 2 ^ 32.

(** An overlay edit that leaves the sample maximum alone and keeps the
    per-frame count a [uint32_t]. *)
Definition keepsSampleMaximum (edit : UserSettings -> UserSettings) : Prop :=
  forall u,
    MaxNumberOfSamples (edit u) = MaxNumberOfSamples u /\
    (0 <= NumberOfSamples u < 2 ^ 32 -> 0 <= NumberOfSamples (edit u) < 2 ^ 32).

(** The accumulated total is a [uint32_t] within the configured maximum. *)
Definition withinBudget `{Collaborators} (s : RayTracer) : Prop :=
  sampleSettingsTyped (userSettings_ s) /\
  0 <= totalNumberOfSamples_ s <= MaxNumberOfSamples (userSettings_ s).

(** What the input callbacks and the swap-chain hooks have no business with:
    the scene, the counters, the clock and the benchmark bookkeeping. *)
Definition renderState `{Collaborators} (s : RayTracer)
  : Z * option Scene * CameraInitialSate * UserSettings * (Z * Z)
    * (double * double * double * Z) * list ConsoleLine :=
  (sceneIndex_ s, scene_ s, cameraInitialSate_ s, previousSettings_ s,
   (totalNumberOfSamples_ s, numberOfSamples_ s),
   (time_ s, sceneInitialTime_ s, periodInitialTime_ s, periodTotalFrames_ s),
   console_ s).

(** The settings apart from the three switches the key handler can flip. *)
Definition fixedSettings (u : UserSettings)
  : bool * bool * Z * Z * bool * Z * Z * Z * (Q * Q * Q * Q) :=
  (Benchmark u, BenchmarkNextScenes u, BenchmarkMaxTime u, SceneIndex u,
   AccumulateRays u, NumberOfSamples u, NumberOfBounces u, MaxNumberOfSamples u,
   (FieldOfView u, Aperture u, FocusDistance u, GammaCorrection u)).

(** The object before [OnDeviceSet]: nothing loaded, no overlay yet. *)
Definition beforeDeviceSet : @RayTracer (exampleCollaborators ["Cube"; "Cornell"]%string) :=
  @mkRayTracer (exampleCollaborators ["Cube"; "Cornell"]%string)
    0 secondSceneSettings secondSceneSettings (mkCameraInitialSate [] 0 0 0 0 false)
    (mkExampleController [] false) None None
    false (S754_zero false) 0 0 false (S754_zero false) (S754_zero false) 0
    exampleWindow [] [].

(** The settings and the wireframe switch after a key event that reaches the
    handler's switch statements (lines 161-179). *)
Definition afterKey (key action : Z) (p : UserSettings * bool) : UserSettings * bool :=
  let (u, w) := p in
  if (action =? GLFW_PRESS) && negb (Benchmark u) then
    if key =? GLFW_KEY_F1 then (with_ShowSettings (negb (ShowSettings u)) u, w)
    else if key =? GLFW_KEY_F2 then (with_ShowOverlay (negb (ShowOverlay u)) u, w)
    else if key =? GLFW_KEY_R then (with_IsRayTraced (negb (IsRayTraced u)) u, w)
    else if key =? GLFW_KEY_P then (u, negb w)
    else (u, w)
  else (u, w).

(** The key event that asks to leave: Escape, pressed. *)
Definition isEscapePress (ev : HostEvent) : bool :=
  match ev with
  | KeyEvent key _ action _ => (key =? GLFW_KEY_ESCAPE) && (action =? GLFW_PRESS)
  | _ => false
  end.

(** The scene the object owns, if any, has at least one texture. *)
Definition sceneTextured `{Collaborators} (s : RayTracer) : Prop :=
  match scene_ s with
  | Some sc => Textures sc <> []
  | None => True
  end.

(** What only a scene load replaces: the active index, the scene and the
    camera state it came with. *)
Definition sceneState `{Collaborators} (s : RayTracer)
  : Z * option Scene * CameraInitialSate :=
  (sceneIndex_ s, scene_ s, cameraInitialSate_ s).

(** [m] maintains the state predicate [I], however it ends. *)
Definition maintains `{Collaborators} {A : Type} (I : RayTracer -> Prop)
  (m : M RayTracer A) : Prop :=
  forall s s', I s -> final_state (m s) = Some s' -> I s'.

(** The pipeline call of line 131: ray traced or rasterised. *)
Definition pipelineCall (u : UserSettings) : Call :=
  if IsRayTraced u then RayTracing_Application_Render else Vulkan_Application_Render.

(** The object after the reset check, the snapshot and the sample count of a
    frame without scene change (lines 99-112). *)
Definition afterSampleCount `{Collaborators} (s : RayTracer) : RayTracer :=
  let s1 := if needsAccumulationReset s
            then set_resetAccumulation_ false (set_totalNumberOfSamples_ 0 s)
            else s in
  let s2 := set_previousSettings_ (userSettings_ s1) s1 in
  let s3 := set_numberOfSamples_ (samplesForFrame s2) s2 in
  set_totalNumberOfSamples_ (add32 (totalNumberOfSamples_ s3) (numberOfSamples_ s3)) s3.

(** The object after the scene-change frame that starts from
    [sceneSwitchState]. *)
Definition sceneSwitchedState : @RayTracer (exampleCollaborators ["Cube"; "Cornell"]%string) :=
  match final_state (DrawFrame (frameAt 1) sceneSwitchState) with
  | Some s => s
  | None => sceneSwitchState
  end.

(** What [Render] does after the benchmark bookkeeping (lines 129-151): the
    pipeline's render, the statistics, the overlay's render. *)
Definition RenderTail `{Collaborators} (inp : FrameInput) (prevTime : double)
  : M RayTracer unit :=
  s <- get ;;
  call (if IsRayTraced (userSettings_ s)
        then RayTracing_Application_Render
        else Vulkan_Application_Render) ;;
  s <- get ;;
  match userInterface_ s with
  | None => undefined
  | Some _ =>
      call (UserInterface_Render
              (frameStatistics inp (dsub (TimeAtRender inp) prevTime) s)) ;;
      modify (fun s => set_userSettings_ (OverlayEdit inp (userSettings_ s)) s)
  end.

(** The object of a frame without scene change when [Render] reaches the
    benchmark bookkeeping (line 127). *)
Definition beforeBenchmarkCheck `{Collaborators} (inp : FrameInput) (s : RayTracer)
  : RayTracer :=
  afterCameraUpdate inp
    (set_calls_ (calls_ (afterSampleCount s) ++ [Application_DrawFrame])
       (afterSampleCount s)).

(** What the scene timer of a benchmark consists of. *)
Definition sceneTimer `{Collaborators} (s : RayTracer) : double * Z :=
  (sceneInitialTime_ s, periodTotalFrames_ s).

(** A benchmark over two scenes whose first scene has used up its sample
    budget. *)
Definition convergedBenchmarkState
  : @RayTracer (exampleCollaborators ["Cube"; "Cornell"]%string) :=
  exampleState ["Cube"; "Cornell"]%string
    (mkUserSettings true true 1000 0 true true 10 4 100 40 (1 # 10) 10 2 false false) 100.

(** 100 samples accumulated with four bounces, after which the bounce count
    was set to eight: the flag is clear and accumulation is on, the settings
    differ from the snapshot in a field that affects the image. *)
Definition changedBouncesState : @RayTracer (exampleCollaborators ["Cube"%string]) :=
  set_userSettings_
    (mkUserSettings false false 5 0 true true 10 8 100 40 (1 # 10) 10 2 false false)
    (exampleState ["Cube"%string] (exampleSettings false 5 100 10) 100).


(** A long single-scene benchmark one frame in, 10 samples taken. *)
Definition benchmarkSecondFrame : @RayTracer (exampleCollaborators ["Cube"%string]) :=
  set_numberOfSamples_ 10
    (set_periodTotalFrames_ 1 (exampleState ["Cube"%string] (exampleSettings true 1000 100 10) 10)).

(** An operation that cannot end by an exception. *)
Definition neverThrows `{Collaborators} {A : Type} (m : M RayTracer A) : Prop :=
  forall s e s', m s <> Thrown e s'.

(** * Proofs *)

(** ** Arithmetic facts *)

Lemma u32_range (z : Z) : 0 <= u32 z < 2 ^ 32.
Proof. unfold u32. apply Z.mod_pos_bound. lia. Qed.

Lemma u32_small (z : Z) : 0 <= z < 2 ^ 32 -> u32 z = z.
Proof. intros Hz. unfold u32. apply Z.mod_small. exact Hz. Qed.

Lemma glm_clamp_bounds (x hi : Z) : 0 <= hi -> 0 <= glm_clamp x 0 hi <= hi.
Proof. unfold glm_clamp. lia. Qed.

(** ** The monad *)

Section MonadFacts.

Context `{Collab : Collaborators}.

Lemma bind_Done {A B} (m : M RayTracer A) (k : A -> M RayTracer B) s a s1 :
  m s = Done a s1 -> bind m k s = k a s1.
Proof. intros E. unfold bind. rewrite E. reflexivity. Qed.

Lemma bind_final {A B} (m : M RayTracer A) (k : A -> M RayTracer B) s s' :
  final_state (bind m k s) = Some s' ->
  (exists a s1, m s = Done a s1 /\ final_state (k a s1) = Some s') \/
  (exists e, m s = Thrown e s').
Proof.
  unfold bind. destruct (m s) as [a s1 | e s1 | ]; simpl; intros E.
  - left. exists a, s1. split; [reflexivity | exact E].
  - right. exists e. congruence.
  - discriminate.
Qed.

Lemma keeps_ret {X A} (f : RayTracer -> X) (a : A) : keeps f (ret a).
Proof. intros s s' E. simpl in E. congruence. Qed.

Lemma keeps_get {X} (f : RayTracer -> X) : keeps f get.
Proof. intros s s' E. simpl in E. congruence. Qed.

Lemma keeps_undefined {X A} (f : RayTracer -> X) : keeps f (@undefined RayTracer A).
Proof. intros s s' E. discriminate. Qed.

Lemma keeps_throw {X A} (f : RayTracer -> X) e : keeps f (@throw RayTracer A e).
Proof. intros s s' E. simpl in E. congruence. Qed.

Lemma keeps_modify {X} (f : RayTracer -> X) (g : RayTracer -> RayTracer) :
  (forall s, f (g s) = f s) -> keeps f (modify g).
Proof. intros Hg s s' E. simpl in E. injection E as <-. apply Hg. Qed.

Lemma keeps_bind {X A B} (f : RayTracer -> X) (m : M RayTracer A)
  (k : A -> M RayTracer B) :
  keeps f m -> (forall a, keeps f (k a)) -> keeps f (bind m k).
Proof.
  intros Hm Hk s s' E.
  destruct (bind_final _ _ _ _ E) as [(a & s1 & E1 & E2) | (e & E1)].
  - rewrite (Hk a s1 s' E2). apply Hm. rewrite E1. reflexivity.
  - apply Hm. rewrite E1. reflexivity.
Qed.

Lemma keeps_when {X} (f : RayTracer -> X) (b : bool) (m : M RayTracer unit) :
  keeps f m -> keeps f (when b m).
Proof. intros Hm. destruct b; simpl; [exact Hm | apply keeps_ret]. Qed.

End MonadFacts.

(** ** Observations that a step leaves alone *)

Ltac keeps_step :=
  first
    [ apply keeps_ret | apply keeps_get | apply keeps_undefined | apply keeps_throw
    | apply keeps_modify; intros; reflexivity
    | apply keeps_when
    | apply keeps_bind; [ | intros ]
    | match goal with
      | |- keeps _ (if ?b then _ else _) => destruct b
      | |- keeps _ (match ?x with _ => _ end) => destruct x
      end ].

Ltac keeps_tac := repeat keeps_step.

Section FrameFacts.

Context `{Collab : Collaborators}.

Lemma CheckAndUpdateBenchmarkState_keeps_samples prevTime now :
  keeps samples (CheckAndUpdateBenchmarkState prevTime now).
Proof.
  unfold CheckAndUpdateBenchmarkState, InitialiseSceneTimers, ReportFrameRate,
    CheckSceneLimits, Window_Close_, print, call.
  keeps_tac.
Qed.

Lemma Render_keeps_samples inp : keeps samples (Render inp).
Proof.
  unfold Render, call.
  apply keeps_bind; [keeps_tac | intros s0].
  apply keeps_bind; [keeps_tac | intros _].
  apply keeps_bind; [keeps_tac | intros _].
  apply keeps_bind; [apply CheckAndUpdateBenchmarkState_keeps_samples | intros _].
  keeps_tac.
Qed.

Lemma Application_DrawFrame_keeps_samples inp :
  keeps samples (Application_DrawFrame_ inp).
Proof.
  unfold Application_DrawFrame_, call.
  apply keeps_bind; [keeps_tac | intros _]. apply Render_keeps_samples.
Qed.

(** The state [DrawFrame] hands to the base class on a frame without scene
    change: reset check, snapshot, sample count. *)
Lemma DrawFrame_steady inp s :
  sceneChanged s = false ->
  let t1 := if needsAccumulationReset s then 0 else totalNumberOfSamples_ s in
  let n := glm_clamp (sub32 (MaxNumberOfSamples (userSettings_ s)) t1) 0
             (NumberOfSamples (userSettings_ s)) in
  exists s2,
    DrawFrame inp s = Application_DrawFrame_ inp s2 /\
    numberOfSamples_ s2 = n /\
    totalNumberOfSamples_ s2 = add32 t1 n /\
    resetAccumulation_ s2 = false /\
    previousSettings_ s2 = userSettings_ s /\
    userSettings_ s2 = userSettings_ s /\
    time_ s2 = time_ s /\
    modelViewController_ s2 = modelViewController_ s /\
    periodTotalFrames_ s2 = periodTotalFrames_ s /\
    periodInitialTime_ s2 = periodInitialTime_ s /\
    console_ s2 = console_ s /\
    calls_ s2 = calls_ s.
Proof.
  intros Hsc. unfold DrawFrame, bind at 1, get. rewrite Hsc.
  unfold CheckAccumulationReset, UpdateSampleCount, samplesForFrame, when, bind, get, modify, ret.
  destruct (needsAccumulationReset s) eqn:Hr; simpl.
  - eexists. split; [reflexivity | ]. simpl. repeat split; reflexivity.
  - eexists. split; [reflexivity | ]. simpl. repeat split; try reflexivity.
    unfold needsAccumulationReset in Hr.
    destruct (resetAccumulation_ s); [discriminate | reflexivity].
Qed.

Lemma Application_DrawFrame_eq inp (s : RayTracer) :
  Application_DrawFrame_ inp s =
  Render inp (set_calls_ (calls_ s ++ [Application_DrawFrame]) s).
Proof. reflexivity. Qed.

Lemma DrawFrame_steady_eq inp (s : RayTracer) :
  sceneChanged s = false ->
  DrawFrame inp s = Application_DrawFrame_ inp (afterSampleCount s).
Proof.
  intros Hsc.
  unfold DrawFrame, CheckAccumulationReset, UpdateSampleCount, afterSampleCount, when,
    bind, get, modify, ret.
  rewrite Hsc. destruct (needsAccumulationReset s); reflexivity.
Qed.

(** The members the first half of a steady frame leaves alone. *)
Lemma afterSampleCount_fields (s : RayTracer) :
  userSettings_ (afterSampleCount s) = userSettings_ s /\
  previousSettings_ (afterSampleCount s) = userSettings_ s /\
  userInterface_ (afterSampleCount s) = userInterface_ s /\
  window_ (afterSampleCount s) = window_ s /\
  calls_ (afterSampleCount s) = calls_ s /\
  console_ (afterSampleCount s) = console_ s /\
  time_ (afterSampleCount s) = time_ s.
Proof.
  unfold afterSampleCount. destruct (needsAccumulationReset s); simpl;
    repeat split; reflexivity.
Qed.


End FrameFacts.

(** ** C1: the sample budget *)

Section SampleBudget.

Context `{Collab : Collaborators}.

Lemma DrawFrame_steady_final inp s s' :
  sceneChanged s = false ->
  final_state (DrawFrame inp s) = Some s' ->
  let t1 := if needsAccumulationReset s then 0 else totalNumberOfSamples_ s in
  let n := glm_clamp (sub32 (MaxNumberOfSamples (userSettings_ s)) t1) 0
             (NumberOfSamples (userSettings_ s)) in
  numberOfSamples_ s' = n /\ totalNumberOfSamples_ s' = add32 t1 n.
Proof.
  intros Hsc Hfin.
  destruct (DrawFrame_steady inp s Hsc) as (s2 & Heq & Hn & Ht & _).
  rewrite Heq in Hfin.
  pose proof (Application_DrawFrame_keeps_samples inp s2 s' Hfin) as Hk.
  injection Hk as Hk1 Hk2. cbv zeta. split; congruence.
Qed.

Lemma quietRun_totals (inputs : list FrameInput) :
  forall (s : RayTracer) (j : Z),
    0 <= j ->
    totalNumberOfSamples_ s = Z.min (10 * j) 100 ->
    quietRun 100 10 inputs s ->
    exists s',
      DrawFrames inputs s = Done tt s' /\
      totalNumberOfSamples_ s' = Z.min (10 * (j + Z.of_nat (List.length inputs))) 100 /\
      (inputs <> [] ->
       numberOfSamples_ s' =
       glm_clamp (100 - Z.min (10 * (j + Z.of_nat (List.length inputs) - 1)) 100) 0 10).
Proof.
  induction inputs as [ | inp rest IH]; intros s j Hj Ht Hq.
  - exists s. split; [reflexivity | ]. split; [ | congruence].
    simpl. rewrite Z.add_0_r. exact Ht.
  - destruct Hq as ((Hsc & Hnr & Hmax & Hper) & s1 & Hstep & Hrest).
    assert (Hfin : final_state (DrawFrame inp s) = Some s1) by (rewrite Hstep; reflexivity).
    destruct (DrawFrame_steady_final inp s s1 Hsc Hfin) as (Hn1 & Ht1).
    rewrite Hnr, Hmax, Hper, Ht in Hn1, Ht1.
    assert (Hsub : sub32 100 (Z.min (10 * j) 100) = 100 - Z.min (10 * j) 100).
    { unfold sub32. apply u32_small. lia. }
    rewrite Hsub in Hn1, Ht1.
    assert (Ht1' : totalNumberOfSamples_ s1 = Z.min (10 * (j + 1)) 100).
    { rewrite Ht1. unfold add32, glm_clamp. rewrite u32_small; lia. }
    destruct (IH s1 (j + 1) ltac:(lia) Ht1' Hrest) as (s' & Hrun & Htot & Hns).
    exists s'. split.
    + simpl. rewrite (bind_Done _ _ _ _ _ Hstep). exact Hrun.
    + split.
      * rewrite Htot. f_equal. simpl List.length. lia.
      * intros _. destruct rest as [ | inp2 rest2].
        -- simpl in Hrun. injection Hrun as <-. rewrite Hn1.
           simpl List.length. f_equal. lia.
        -- rewrite Hns by discriminate. f_equal. simpl List.length. lia.
Qed.

(** C1.  On a frame without scene change the state handed on after line 112
    has [numberOfSamples_ = clamp(MaxNumberOfSamples - totalNumberOfSamples_,
    0, NumberOfSamples)] (the subtraction on [uint32_t], the total being the
    one left by the reset check) and the total incremented by that amount, and
    so has every state the frame can end in.  Starting from a total of 0 with
    a maximum of 100 and 10 samples per frame, a run of frames without reset
    has a total of [min(10 * frames, 100)], hence 100 from the tenth frame on,
    and from the eleventh frame on each frame takes 0 samples. *)
Theorem sample_budget_per_frame :
  (forall inp s,
     sceneChanged s = false ->
     let t1 := if needsAccumulationReset s then 0 else totalNumberOfSamples_ s in
     let n := glm_clamp (sub32 (MaxNumberOfSamples (userSettings_ s)) t1) 0
                (NumberOfSamples (userSettings_ s)) in
     exists s2,
       DrawFrame inp s = Application_DrawFrame_ inp s2 /\
       numberOfSamples_ s2 = n /\
       totalNumberOfSamples_ s2 = add32 t1 n /\
       forall s', final_state (DrawFrame inp s) = Some s' ->
                  numberOfSamples_ s' = n /\ totalNumberOfSamples_ s' = add32 t1 n)
  /\
  (forall inputs s0,
     totalNumberOfSamples_ s0 = 0 ->
     quietRun 100 10 inputs s0 ->
     exists s',
       DrawFrames inputs s0 = Done tt s' /\
       totalNumberOfSamples_ s' = Z.min (10 * Z.of_nat (List.length inputs)) 100 /\
       ((10 <= List.length inputs)%nat -> totalNumberOfSamples_ s' = 100) /\
       ((10 < List.length inputs)%nat -> numberOfSamples_ s' = 0)).
Proof.
  split.
  - intros inp s Hsc. cbv zeta.
    destruct (DrawFrame_steady inp s Hsc) as (s2 & Heq & Hn & Ht & _).
    exists s2. repeat split; try assumption;
      apply (DrawFrame_steady_final inp s s' Hsc); assumption.
  - intros inputs s0 Ht Hq.
    destruct (quietRun_totals inputs s0 0 ltac:(lia) Ht Hq) as (s' & Hrun & Htot & Hns).
    exists s'. split; [exact Hrun | ]. rewrite Z.add_0_l in Htot. split; [exact Htot | ].
    split.
    + intros Hlen. rewrite Htot. lia.
    + intros Hlen. rewrite Hns.
      * unfold glm_clamp. lia.
      * intros ->. simpl in Hlen. lia.
Qed.

End SampleBudget.

(** Twelve one-second frames from a fresh accumulation: the total stops at 100
    and the last frame takes no sample. *)
Lemma sample_budget_twelve_frames :
  exists s',
    DrawFrames (framesEvery 1 12 0)
      (exampleState ["Cube"%string] (exampleSettings false 5 100 10) 0) = Done tt s' /\
    totalNumberOfSamples_ s' = 100 /\ numberOfSamples_ s' = 0.
Proof.
  destruct (proj2 (@sample_budget_per_frame (exampleCollaborators ["Cube"%string]))
              (framesEvery 1 12 0)
              (exampleState ["Cube"%string] (exampleSettings false 5 100 10) 0)
              eq_refl) as (s' & Hrun & _ & H100 & H0).
  - simpl framesEvery. simpl quietRun.
    repeat (split; [vm_compute; repeat split; reflexivity | ];
            eexists; split; [vm_compute; reflexivity | ]).
    exact I.
  - exists s'. split; [exact Hrun | ]. split.
    + apply H100. simpl. lia.
    + apply H0. simpl. lia.
Defined.

(** ** The scene-change path of the frame driver *)

Section SceneChange.

Context `{Collab : Collaborators}.

Lemma nth_error_exists {A} (l : list A) (n : nat) :
  (n < List.length l)%nat -> exists x, nth_error l n = Some x.
Proof.
  intros Hn. destruct (nth_error l n) as [x | ] eqn:E.
  - exists x. reflexivity.
  - apply nth_error_None in E. lia.
Qed.

(** Outside the registry the frame stops at the subscript of [LoadScene],
    after the teardown: the overlay is gone and three calls are made, the
    scene, the active index, the camera state and the settings are what they
    were. *)
Lemma DrawFrame_sceneChange_undefined inp s :
  sceneChanged s = true ->
  ~ requestedSceneExists s ->
  exists s',
    DrawFrame inp s = Undefined s' /\
    calls_ s' = calls_ s ++ [Device_WaitIdle; Application_DeleteSwapChain;
                             DeleteAccelerationStructures] /\
    scene_ s' = scene_ s /\
    sceneIndex_ s' = sceneIndex_ s /\
    cameraInitialSate_ s' = cameraInitialSate_ s /\
    userSettings_ s' = userSettings_ s.
Proof.
  intros Hsc Hout. unfold requestedSceneExists in Hout.
  assert (E : nth_error AllScenes (Z.to_nat (u32 (SceneIndex (userSettings_ s)))) = None).
  { apply nth_error_None. lia. }
  unfold DrawFrame, bind at 1, get. rewrite Hsc.
  unfold LoadScene, DeleteSwapChain, call, bind, get, modify, undefined. simpl.
  rewrite E. eexists. split; [reflexivity | ]. simpl.
  rewrite <- !app_assoc. repeat split; reflexivity.
Qed.

Lemma DrawFrame_sceneChange_no_final inp s :
  sceneChanged s = true ->
  ~ requestedSceneExists s ->
  final_state (DrawFrame inp s) = None.
Proof.
  intros Hsc Hout.
  destruct (DrawFrame_sceneChange_undefined inp s Hsc Hout) as (s' & -> & _).
  reflexivity.
Qed.

(** Inside the registry the frame runs the six calls and nothing of the
    accumulation or rendering steps; it ends normally or by the framebuffer
    check of [CreateSwapChain], after the rebuild either way. *)
Lemma DrawFrame_sceneChange_defined inp s :
  sceneChanged s = true ->
  requestedSceneExists s ->
  exists s',
    (DrawFrame inp s = Done tt s' \/ exists e, DrawFrame inp s = Thrown e s') /\
    calls_ s' = calls_ s ++ sceneChangeCalls /\
    totalNumberOfSamples_ s' = totalNumberOfSamples_ s /\
    numberOfSamples_ s' = numberOfSamples_ s /\
    previousSettings_ s' = previousSettings_ s /\
    resetAccumulation_ s' = true /\
    sceneIndex_ s' = u32 (SceneIndex (userSettings_ s)) /\
    SceneIndex (userSettings_ s') = SceneIndex (userSettings_ s) /\
    periodTotalFrames_ s' = 0 /\
    time_ s' = time_ s /\
    console_ s' = console_ s.
Proof.
  intros Hsc Hin.
  destruct (nth_error_exists _ _ Hin) as ((name & create) & E).
  unfold DrawFrame, LoadScene, DeleteSwapChain, CreateSwapChain, CheckFramebufferSize,
    call, bind, get, modify, throw, ret.
  rewrite Hsc. simpl. rewrite E.
  destruct (create (cameraInitialSate_ s)) as ((models & textures) & init).
  simpl.
  match goal with
  | |- context [if ?c then _ else _] => destruct c
  end; eexists; (split; [ first [ left; reflexivity | right; eexists; reflexivity ] | ]);
    simpl; rewrite <- !app_assoc; simpl; repeat split; reflexivity.
Qed.

End SceneChange.

(** ** C8 and C10: what a scene-change frame does and does not do *)




(** C10.  On a frame where a scene change is detected the driver returns
    after the rebuild: the two sample counters and the settings snapshot are
    what they were, the reset flag is left raised instead of being consumed,
    and none of the calls made in the frame hands drawing to the base class,
    the pipeline or the overlay.  The frame has no defined outcome only when
    the requested index lies outside the registry. *)
Theorem scene_change_skips_accumulation `{Collab : Collaborators}
  (inp : FrameInput) (s : RayTracer) :
  sceneChanged s = true ->
  match DrawFrame inp s with
  | Done _ s' | Thrown _ s' =>
      totalNumberOfSamples_ s' = totalNumberOfSamples_ s /\
      numberOfSamples_ s' = numberOfSamples_ s /\
      previousSettings_ s' = previousSettings_ s /\
      resetAccumulation_ s' = true /\
      exists added, newCalls s s' added /\ existsb isRenderCall added = false
  | Undefined _ => ~ requestedSceneExists s
  end.
Proof.
  intros Hsc.
  destruct (lt_dec (Z.to_nat (u32 (SceneIndex (userSettings_ s)))) (List.length AllScenes))
    as [Hin | Hout].
  - destruct (DrawFrame_sceneChange_defined inp s Hsc Hin)
      as (s' & Hout & Hcalls & Ht & Hn & Hp & Hr & _).
    assert (Hgoal : totalNumberOfSamples_ s' = totalNumberOfSamples_ s /\
      numberOfSamples_ s' = numberOfSamples_ s /\
      previousSettings_ s' = previousSettings_ s /\
      resetAccumulation_ s' = true /\
      exists added, newCalls s s' added /\ existsb isRenderCall added = false).
    { repeat split; try assumption.
      exists sceneChangeCalls. split; [exact Hcalls | reflexivity]. }
    destruct Hout as [-> | (e & ->)]; exact Hgoal.
  - destruct (DrawFrame_sceneChange_undefined inp s Hsc Hout) as (s' & -> & _).
    exact Hout.
Qed.

(** The same switch: 50 samples before, 50 samples after, nothing rendered. *)
Lemma scene_change_skips_accumulation_two_scenes :
  match DrawFrame (frameAt 1) sceneSwitchState with
  | Done _ s' | Thrown _ s' =>
      totalNumberOfSamples_ s' = totalNumberOfSamples_ sceneSwitchState /\
      numberOfSamples_ s' = numberOfSamples_ sceneSwitchState /\
      previousSettings_ s' = previousSettings_ sceneSwitchState /\
      resetAccumulation_ s' = true /\
      exists added, newCalls sceneSwitchState s' added /\
                    existsb isRenderCall added = false
  | Undefined _ => ~ requestedSceneExists sceneSwitchState
  end.
Proof.
  apply (@scene_change_skips_accumulation (exampleCollaborators ["Cube"; "Cornell"]%string)
           (frameAt 1) sceneSwitchState).
  vm_compute. reflexivity.
Defined.

(** ** C2: the budget invariant and the lowered maximum *)

Section BudgetInvariant.

Context `{Collab : Collaborators}.

(** The per-frame count never exceeds the per-frame setting, whatever the
    total and the maximum are. *)
Lemma samplesForFrame_bounds (s : RayTracer) :
  0 <= NumberOfSamples (userSettings_ s) ->
  0 <= samplesForFrame s <= NumberOfSamples (userSettings_ s) /\
  samplesForFrame s
  <= sub32 (MaxNumberOfSamples (userSettings_ s)) (totalNumberOfSamples_ s).
Proof.
  intros Hn. unfold samplesForFrame.
  pose proof (u32_range (MaxNumberOfSamples (userSettings_ s) - totalNumberOfSamples_ s))
    as Hr.
  split; [apply glm_clamp_bounds; exact Hn | ].
  unfold sub32, glm_clamp. lia.
Qed.

(** While the total is within the maximum the invariant of the data model
    holds at the sample-count step. *)
Lemma budget_invariant_within_maximum (s : RayTracer) :
  0 <= totalNumberOfSamples_ s <= MaxNumberOfSamples (userSettings_ s) ->
  MaxNumberOfSamples (userSettings_ s) < 2 ^ 32 ->
  0 <= NumberOfSamples (userSettings_ s) ->
  exists s',
    UpdateSampleCount s = Done tt s' /\
    0 <= numberOfSamples_ s' <=
      MaxNumberOfSamples (userSettings_ s) - totalNumberOfSamples_ s /\
    totalNumberOfSamples_ s' <= MaxNumberOfSamples (userSettings_ s').
Proof.
  intros Ht Hm Hn. eexists. split; [reflexivity | ]. simpl.
  unfold samplesForFrame, sub32, add32.
  rewrite (u32_small (MaxNumberOfSamples (userSettings_ s) - totalNumberOfSamples_ s))
    by lia.
  unfold glm_clamp. rewrite u32_small by lia. lia.
Qed.

(** C2 fails on the code.  On a frame without reset whose maximum lies below
    the accumulated total, the unsigned difference wraps, the clamp lets the
    whole per-frame count through, and the total moves further above the
    maximum: both parts of the invariant are broken in the state after
    line 112. *)
Theorem lowered_maximum_overshoots (inp : FrameInput) (s : RayTracer) :
  sceneChanged s = false ->
  needsAccumulationReset s = false ->
  0 <= MaxNumberOfSamples (userSettings_ s) < totalNumberOfSamples_ s ->
  0 < NumberOfSamples (userSettings_ s) ->
  totalNumberOfSamples_ s + NumberOfSamples (userSettings_ s) < 2 ^ 32 ->
  exists s2,
    DrawFrame inp s = Application_DrawFrame_ inp s2 /\
    userSettings_ s2 = userSettings_ s /\
    numberOfSamples_ s2 = NumberOfSamples (userSettings_ s) /\
    totalNumberOfSamples_ s2 = totalNumberOfSamples_ s + NumberOfSamples (userSettings_ s) /\
    MaxNumberOfSamples (userSettings_ s2) - totalNumberOfSamples_ s < numberOfSamples_ s2 /\
    MaxNumberOfSamples (userSettings_ s2) < totalNumberOfSamples_ s2.
Proof.
  intros Hsc Hnr Hmax Hper Hfit.
  destruct (DrawFrame_steady inp s Hsc) as (s2 & Heq & Hn & Ht & _ & _ & Hu & _).
  rewrite Hnr in Hn, Ht.
  assert (Hsub : sub32 (MaxNumberOfSamples (userSettings_ s)) (totalNumberOfSamples_ s)
                 = 2 ^ 32 - (totalNumberOfSamples_ s - MaxNumberOfSamples (userSettings_ s))).
  { unfold sub32, u32.
    replace (MaxNumberOfSamples (userSettings_ s) - totalNumberOfSamples_ s)
      with (2 ^ 32 - (totalNumberOfSamples_ s - MaxNumberOfSamples (userSettings_ s))
            + (-1) * 2 ^ 32) by lia.
    rewrite Z.mod_add by lia. apply Z.mod_small. lia. }
  rewrite Hsub in Hn, Ht.
  assert (Hn' : numberOfSamples_ s2 = NumberOfSamples (userSettings_ s)).
  { rewrite Hn. unfold glm_clamp. lia. }
  assert (Ht' : totalNumberOfSamples_ s2 =
                totalNumberOfSamples_ s + NumberOfSamples (userSettings_ s)).
  { rewrite Ht. unfold glm_clamp, add32.
    replace (Z.min (Z.max (2 ^ 32 - (totalNumberOfSamples_ s
                                     - MaxNumberOfSamples (userSettings_ s))) 0)
                   (NumberOfSamples (userSettings_ s)))
      with (NumberOfSamples (userSettings_ s)) by lia.
    apply u32_small. lia. }
  exists s2. rewrite Hu, Hn', Ht'. repeat split; try assumption; try reflexivity; lia.
Qed.

End BudgetInvariant.

(** Maximum lowered from 100 to 50 with 100 samples taken: the next frame
    takes 10 more and the total is 110. *)
Lemma lowered_maximum_overshoots_example :
  exists s2,
    DrawFrame (frameAt 1) loweredMaximumState = Application_DrawFrame_ (frameAt 1) s2 /\
    MaxNumberOfSamples (userSettings_ s2) = 50 /\
    numberOfSamples_ s2 = 10 /\
    totalNumberOfSamples_ s2 = 110.
Proof.
  destruct (@lowered_maximum_overshoots (exampleCollaborators ["Cube"%string])
              (frameAt 1) loweredMaximumState)
    as (s2 & Heq & Hu & Hn & Ht & _).
  - reflexivity.
  - reflexivity.
  - vm_compute. split; [discriminate | reflexivity].
  - reflexivity.
  - reflexivity.
  - exists s2. rewrite Hu. repeat split; assumption.
Defined.


(** ** C3: when the accumulated total is reset *)

Section ResetCheck.

Context `{Collab : Collaborators}.

Lemma CheckFramebufferSize_keeps_reset : keeps resetAccumulation_ CheckFramebufferSize.
Proof. unfold CheckFramebufferSize. keeps_tac. Qed.

(** A rebuilt swap chain leaves the reset flag raised. *)
Lemma CreateSwapChain_raises_reset (s s' : RayTracer) :
  final_state (CreateSwapChain s) = Some s' -> resetAccumulation_ s' = true.
Proof.
  unfold CreateSwapChain, call. intros E.
  change (final_state
            (CheckFramebufferSize
               (set_resetAccumulation_ true
                  (set_userInterface_ (Some (mkUserInterface false false))
                     (set_calls_ (calls_ s ++ [Application_CreateSwapChain]) s))))
          = Some s') in E.
  rewrite (CheckFramebufferSize_keeps_reset _ _ E). reflexivity.
Qed.

(** A loaded scene leaves the reset flag raised. *)
Lemma LoadScene_raises_reset (i : Z) (s s' : RayTracer) :
  final_state (LoadScene i s) = Some s' -> resetAccumulation_ s' = true.
Proof.
  unfold LoadScene, call, bind, get, modify, undefined.
  destruct (nth_error AllScenes (Z.to_nat (u32 i))) as [(name & create) | ];
    [ | discriminate].
  destruct (create (cameraInitialSate_ s)) as ((models & textures) & init).
  simpl. intros E. injection E as <-. reflexivity.
Qed.

(** C3, amended.  The settings comparison of the source being the one the
    spec describes (some field that affects the rendered image differs from
    the snapshot), on a frame without scene change the reset check sets the
    total to 0 when at least one of the three conditions holds at the start
    of the frame (the reset flag is raised, which a scene load and a
    swap-chain rebuild both do; a settings field that affects the image
    differs from the previous frame's snapshot; accumulation is switched off)
    and leaves the total as it was when none holds, before the sample count
    is taken.  On a scene-change frame the check does not run: the total is
    untouched and the flag stays raised for the frame that follows. *)
Theorem reset_check_on_steady_frames (inp : FrameInput) (s : RayTracer) :
  (forall cur prev, RequiresAccumulationReset cur prev = imageSettingsDiffer cur prev) ->
  (sceneChanged s = false ->
   exists s1,
     CheckAccumulationReset s = Done tt s1 /\
     (resetAccumulation_ s = true \/
      imageSettingsDiffer (userSettings_ s) (previousSettings_ s) = true \/
      AccumulateRays (userSettings_ s) = false ->
      totalNumberOfSamples_ s1 = 0) /\
     (resetAccumulation_ s = false ->
      imageSettingsDiffer (userSettings_ s) (previousSettings_ s) = false ->
      AccumulateRays (userSettings_ s) = true ->
      totalNumberOfSamples_ s1 = totalNumberOfSamples_ s) /\
     resetAccumulation_ s1 = false /\
     DrawFrame inp s =
       (modify (fun s => set_previousSettings_ (userSettings_ s) s) ;;
        UpdateSampleCount ;;
        Application_DrawFrame_ inp) s1) /\
  (sceneChanged s = true ->
   forall s', final_state (DrawFrame inp s) = Some s' ->
     totalNumberOfSamples_ s' = totalNumberOfSamples_ s /\
     resetAccumulation_ s' = true) /\
  (forall i s0 s', final_state (LoadScene i s0) = Some s' ->
     resetAccumulation_ s' = true) /\
  (forall s0 s', final_state (CreateSwapChain s0) = Some s' ->
     resetAccumulation_ s' = true).
Proof.
  intros Hcmp. split; [ | split; [ | split]].
  - intros Hsc.
    exists (if needsAccumulationReset s
            then set_resetAccumulation_ false (set_totalNumberOfSamples_ 0 s)
            else s).
    unfold DrawFrame, CheckAccumulationReset, when, bind, get, modify, ret.
    rewrite Hsc. unfold needsAccumulationReset. rewrite Hcmp.
    destruct (resetAccumulation_ s) eqn:Hflag;
      destruct (imageSettingsDiffer (userSettings_ s) (previousSettings_ s)) eqn:Hdiff;
      destruct (AccumulateRays (userSettings_ s)) eqn:Hacc; simpl;
      (split; [reflexivity | ]);
      (split; [intros Hcond; try reflexivity;
               destruct Hcond as [Hc | [Hc | Hc]]; discriminate | ]);
      (split; [intros H1 H2 H3; try reflexivity; discriminate | ]);
      (split; [try reflexivity; exact Hflag | reflexivity]).
  - intros Hsc s' Hfin.
    destruct (lt_dec (Z.to_nat (u32 (SceneIndex (userSettings_ s))))
                (List.length AllScenes)) as [Hin | Hout].
    + destruct (DrawFrame_sceneChange_defined inp s Hsc Hin)
        as (s2 & Hend & _ & Ht & _ & _ & Hr & _).
      assert (s2 = s').
      { destruct Hend as [E | (e & E)]; rewrite E in Hfin; simpl in Hfin; congruence. }
      subst s2. split; assumption.
    + rewrite (DrawFrame_sceneChange_no_final inp s Hsc Hout) in Hfin. discriminate.
  - exact LoadScene_raises_reset.
  - exact CreateSwapChain_raises_reset.
Qed.

End ResetCheck.

(** Two steady frames with the flag clear and accumulation on.  In the first
    the bounce count differs from the snapshot: the check brings the 100
    accumulated samples back to 0.  In the second nothing differs: the 100
    samples stay. *)
Lemma reset_check_on_steady_frames_example :
  (exists s1,
     CheckAccumulationReset changedBouncesState = Done tt s1 /\
     totalNumberOfSamples_ changedBouncesState = 100 /\
     totalNumberOfSamples_ s1 = 0) /\
  (exists s1,
     CheckAccumulationReset
       (exampleState ["Cube"%string] (exampleSettings false 5 100 10) 100) = Done tt s1 /\
     totalNumberOfSamples_ s1 = 100).
Proof.
  split.
  - destruct (proj1 (@reset_check_on_steady_frames (exampleCollaborators ["Cube"%string])
                       (frameAt 1) changedBouncesState (fun _ _ => eq_refl)) eq_refl)
      as (s1 & Hrun & Hzero & _).
    exists s1. split; [exact Hrun | ]. split; [reflexivity | ].
    apply Hzero. right. left. reflexivity.
  - destruct (proj1 (@reset_check_on_steady_frames (exampleCollaborators ["Cube"%string])
                       (frameAt 1)
                       (exampleState ["Cube"%string] (exampleSettings false 5 100 10) 100)
                       (fun _ _ => eq_refl)) eq_refl)
      as (s1 & Hrun & _ & Hkeep & _).
    exists s1. split; [exact Hrun | ]. apply Hkeep; reflexivity.
Defined.

(** C3 as stated fails: this frame starts with a reset condition (accumulation
    is off) and 50 accumulated samples, detects a scene change, and ends with
    the 50 samples still in place. *)
Lemma reset_check_skipped_on_scene_change :
  needsAccumulationReset sceneSwitchState = true /\
  totalNumberOfSamples_ sceneSwitchState = 50 /\
  exists s',
    DrawFrame (frameAt 1) sceneSwitchState = Done tt s' /\
    totalNumberOfSamples_ s' = 50 /\
    totalNumberOfSamples_ s' <> 0.
Proof.
  split; [reflexivity | ]. split; [reflexivity | ].
  eexists. split; [vm_compute; reflexivity | ].
  split; [reflexivity | discriminate].
Qed.

(** ** C4: the camera update and the reset flag *)

Section CameraUpdate.

Context `{Collab : Collaborators}.

Lemma Render_after_camera (inp : FrameInput) (s : RayTracer) :
  Render inp s = RenderAfterCamera inp (time_ s) (afterCameraUpdate inp s).
Proof. reflexivity. Qed.





End CameraUpdate.


(** ** C5: input while benchmarking or while the overlay has focus *)

Section InputHandlers.

Context `{Collab : Collaborators}.

(** The overlay holds the keyboard: the key handler changes nothing. *)
Lemma OnKey_ignored_with_keyboard_focus key scancode action mods (s : RayTracer) ui :
  userInterface_ s = Some ui ->
  WantsToCaptureKeyboard ui = true ->
  OnKey key scancode action mods s = Done tt s.
Proof.
  intros Hui Hkb. unfold OnKey, bind, get. rewrite Hui, Hkb. reflexivity.
Qed.

(** Benchmark mode: the cursor handler changes nothing. *)
Lemma OnCursorPosition_ignored_in_benchmark xpos ypos (s : RayTracer) :
  Benchmark (userSettings_ s) = true ->
  OnCursorPosition xpos ypos s = Done tt s.
Proof. intros Hb. unfold OnCursorPosition, bind, get. rewrite Hb. reflexivity. Qed.

(** The overlay holds the keyboard or the pointer: the cursor handler changes
    nothing. *)
Lemma OnCursorPosition_ignored_with_focus xpos ypos (s : RayTracer) ui :
  userInterface_ s = Some ui ->
  WantsToCaptureKeyboard ui || WantsToCaptureMouse ui = true ->
  OnCursorPosition xpos ypos s = Done tt s.
Proof.
  intros Hui Hf. unfold OnCursorPosition, bind, get. rewrite Hui, Hf.
  destruct (Benchmark (userSettings_ s)); reflexivity.
Qed.

(** Benchmark mode: the mouse-button handler changes nothing. *)
Lemma OnMouseButton_ignored_in_benchmark button action mods (s : RayTracer) :
  Benchmark (userSettings_ s) = true ->
  OnMouseButton button action mods s = Done tt s.
Proof. intros Hb. unfold OnMouseButton, bind, get. rewrite Hb. reflexivity. Qed.

(** The overlay holds the pointer: the mouse-button handler changes nothing. *)
Lemma OnMouseButton_ignored_with_focus button action mods (s : RayTracer) ui :
  userInterface_ s = Some ui ->
  WantsToCaptureMouse ui = true ->
  OnMouseButton button action mods s = Done tt s.
Proof.
  intros Hui Hf. unfold OnMouseButton, bind, get. rewrite Hui, Hf.
  destruct (Benchmark (userSettings_ s)); reflexivity.
Qed.

(** C5 fails on the key handler.  In benchmark mode, the overlay not holding
    the keyboard, a key event is passed to the controller all the same: the
    controller state after the handler is the one the controller computed,
    and its pose-changed answer is or-ed into the reset flag. *)
Theorem key_events_reach_camera_in_benchmark key scancode action mods
  (s : RayTracer) (ui : UserInterface) :
  userInterface_ s = Some ui ->
  WantsToCaptureKeyboard ui = false ->
  Benchmark (userSettings_ s) = true ->
  exists s',
    OnKey key scancode action mods s = Done tt s' /\
    modelViewController_ s' =
      snd (MVC_OnKey key scancode action mods (modelViewController_ s)) /\
    resetAccumulation_ s' =
      resetAccumulation_ s || fst (MVC_OnKey key scancode action mods (modelViewController_ s)).
Proof.
  intros Hui Hkb Hb.
  unfold OnKey, Window_Close_, call, when, bind, get, modify, ret.
  rewrite Hui, Hkb.
  destruct (action =? GLFW_PRESS); [destruct (key =? GLFW_KEY_ESCAPE) | ];
    simpl; rewrite ?Hb; simpl; eexists; (split; [reflexivity | split; reflexivity]).
Qed.

End InputHandlers.

(** Pressing W during a benchmark: the controller starts moving and the reset
    flag goes up. *)
Lemma key_events_reach_camera_in_benchmark_example :
  exists s',
    OnKey GLFW_KEY_W 0 GLFW_PRESS 0 benchmarkState = Done tt s' /\
    movingForward (modelViewController_ s') = true /\
    movingForward (modelViewController_ benchmarkState) = false /\
    resetAccumulation_ s' = true /\
    resetAccumulation_ benchmarkState = false.
Proof.
  destruct (@key_events_reach_camera_in_benchmark (exampleCollaborators ["Cube"%string])
              GLFW_KEY_W 0 GLFW_PRESS 0 benchmarkState (mkUserInterface false false)
              eq_refl eq_refl eq_refl) as (s' & Hrun & Hmvc & Hflag).
  exists s'. split; [exact Hrun | ].
  rewrite Hmvc, Hflag. repeat split; reflexivity.
Defined.

(** ** C9: loading a scene *)

Section SceneLoading.

Context `{Collab : Collaborators}.


End SceneLoading.


(** Loading the second of two registered scenes. *)
Lemma LoadScene_second_scene :
  exists s',
    LoadScene 1 sceneSwitchState = Done tt s' /\
    sceneIndex_ s' = 1 /\
    scene_ s' = Some (@mkScene (exampleCollaborators ["Cube"; "Cornell"]%string)
                        ["Cornell"%string] ["../assets/textures/white.png"%string]) /\
    resetAccumulation_ s' = true.
Proof.
  eexists. split; [vm_compute; reflexivity | ]. repeat split; reflexivity.
Qed.

(** ** C7: leaving a scene in benchmark mode *)

Section SceneAdvance.

Context `{Collab : Collaborators}.

Lemma bind_assoc {A B C} (m : M RayTracer A) (f : A -> M RayTracer B)
  (g : B -> M RayTracer C) (s : RayTracer) :
  bind (bind m f) g s = bind m (fun x => bind (f x) g) s.
Proof. unfold bind. destruct (m s); reflexivity. Qed.

Lemma BenchmarkTimers_keeps_limitInputs prevTime :
  keeps limitInputs (BenchmarkTimers prevTime).
Proof.
  unfold BenchmarkTimers, InitialiseSceneTimers, ReportFrameRate, print.
  keeps_tac.
Qed.

Lemma closeRequests_app (l1 l2 : list Call) :
  closeRequests (l1 ++ l2) = (closeRequests l1 + closeRequests l2)%nat.
Proof.
  induction l1 as [ | c l1 IH]; simpl; [reflexivity | ].
  destruct c; simpl; rewrite IH; reflexivity.
Qed.

(** The limit test proper (lines 266-281), from the state the bookkeeping
    left. *)
Lemma CheckSceneLimits_spec (now : double) (s : RayTracer) :
  SceneIndex (userSettings_ s) < INT_MAX ->
  exists s',
    CheckSceneLimits now s = Done tt s' /\
    SceneIndex (userSettings_ s') =
      SceneIndex (userSettings_ s) + (if sceneLimitReached now s then 1 else 0) /\
    closeRequests (calls_ s') =
      (closeRequests (calls_ s) +
       (if sceneLimitReached now s && closesAfterScene (userSettings_ s) then 1 else 0))%nat /\
    ShouldClose (window_ s') =
      ShouldClose (window_ s) ||
      (sceneLimitReached now s && closesAfterScene (userSettings_ s)).
Proof.
  intros Hmax.
  assert (Hne : (SceneIndex (userSettings_ s) =? INT_MAX) = false) by (apply Z.eqb_neq; lia).
  unfold CheckSceneLimits, sceneLimitReached, Window_Close_, print, call, when,
    bind, get, modify, ret.
  destruct (timeLimitReached now s || sampleLimitReached s); simpl.
  - destruct (closesAfterScene (userSettings_ s)); simpl; rewrite Hne;
      eexists; (split; [reflexivity | ]); simpl;
      rewrite ?closeRequests_app; simpl;
      repeat split; try lia; try reflexivity;
      destruct (ShouldClose (window_ s)); reflexivity.
  - eexists. split; [reflexivity | ]. simpl. repeat split; try lia.
    destruct (ShouldClose (window_ s)); reflexivity.
Qed.

(** The scene timer after the bookkeeping of lines 241-264: started at the
    current clock when no frame was counted, left alone otherwise; the frame
    count is positive afterwards. *)
Lemma BenchmarkTimers_sceneTimer prevTime (s s' : RayTracer) :
  0 <= periodTotalFrames_ s < 2 ^ 32 - 1 ->
  BenchmarkTimers prevTime s = Done tt s' ->
  (periodTotalFrames_ s = 0 ->
   sceneInitialTime_ s' = time_ s /\ periodTotalFrames_ s' = 1) /\
  (periodTotalFrames_ s <> 0 ->
   sceneInitialTime_ s' = sceneInitialTime_ s /\ 0 < periodTotalFrames_ s' < 2 ^ 32).
Proof.
  intros Hrange.
  unfold BenchmarkTimers, InitialiseSceneTimers, ReportFrameRate,
    print, when, bind, get, modify, ret, undefined.
  destruct (periodTotalFrames_ s =? 0) eqn:Hz.
  - apply Z.eqb_eq in Hz.
    destruct (nth_error AllScenes (Z.to_nat (sceneIndex_ s))) as [(name & create) | ];
      simpl; [ | discriminate].
    rewrite Hz. simpl. intros E. injection E as <-. simpl.
    split; [intros _; split; [reflexivity | rewrite Hz; reflexivity]
           | intros Hnz; contradiction].
  - simpl. rewrite Hz. apply Z.eqb_neq in Hz.
    destruct (cast_u64 _) as [a | ]; [ | discriminate].
    destruct (cast_u64 _) as [b | ]; [ | discriminate].
    destruct (a =? b); simpl; intros E; injection E as <-; simpl;
      (split; [intros Hnz; contradiction | intros _; split; [reflexivity | ]]).
    + unfold add32. rewrite u32_small by lia. lia.
    + unfold add32. rewrite u32_small by lia. lia.
Qed.

(** C7.  In benchmark mode, the bookkeeping of lines 241-264 having ended
    normally, one call of [CheckAndUpdateBenchmarkState] ends normally and
    the requested scene index goes up by exactly one when the scene's time
    limit is exceeded (the clock read at line 268 minus the scene's start,
    in double arithmetic, is greater than [BenchmarkMaxTime]; the scene
    started at this frame when no frame was counted yet) or the frame took
    no sample, and not at all otherwise.  A window close is requested
    exactly once when in addition advancing through the scenes is disabled
    or the scene is the last of the registry, and not at all otherwise. *)
Theorem benchmark_scene_advance (prevTime now : double) (s s1 : RayTracer) :
  Benchmark (userSettings_ s) = true ->
  BenchmarkTimers prevTime s = Done tt s1 ->
  0 <= periodTotalFrames_ s < 2 ^ 32 - 1 ->
  0 <= SceneIndex (userSettings_ s) < Z.of_nat (List.length AllScenes) ->
  Z.of_nat (List.length AllScenes) < INT_MAX ->
  let sceneStart :=
    if periodTotalFrames_ s =? 0 then time_ s else sceneInitialTime_ s in
  let timeLimit :=
    dgtb (dsub now sceneStart) (double_of_Z (BenchmarkMaxTime (userSettings_ s))) in
  let sampleLimit := numberOfSamples_ s =? 0 in
  let lastOrSingle :=
    negb (BenchmarkNextScenes (userSettings_ s)) ||
    (SceneIndex (userSettings_ s) =? Z.of_nat (List.length AllScenes) - 1) in
  exists s',
    CheckAndUpdateBenchmarkState prevTime now s = Done tt s' /\
    SceneIndex (userSettings_ s') =
      SceneIndex (userSettings_ s) + (if timeLimit || sampleLimit then 1 else 0) /\
    closeRequests (calls_ s') =
      (closeRequests (calls_ s) +
       (if (timeLimit || sampleLimit) && lastOrSingle then 1 else 0))%nat /\
    ShouldClose (window_ s') =
      ShouldClose (window_ s) || ((timeLimit || sampleLimit) && lastOrSingle).
Proof.
  intros Hb Ht Hframes Hidx Hlen. cbv zeta.
  assert (Hk : limitInputs s1 = limitInputs s).
  { apply (BenchmarkTimers_keeps_limitInputs prevTime). rewrite Ht. reflexivity. }
  injection Hk as Hu Hc Hw Hn.
  assert (Hrun : CheckAndUpdateBenchmarkState prevTime now s = CheckSceneLimits now s1).
  { unfold CheckAndUpdateBenchmarkState, bind at 1, get. rewrite Hb. simpl.
    transitivity (bind (BenchmarkTimers prevTime) (fun _ => CheckSceneLimits now) s).
    - unfold BenchmarkTimers. symmetry. apply bind_assoc.
    - exact (bind_Done (BenchmarkTimers prevTime) (fun _ => CheckSceneLimits now)
               s tt s1 Ht). }
  destruct (BenchmarkTimers_sceneTimer prevTime s s1 Hframes Ht) as (Hfirst & Hlater).
  assert (Hstart : sceneInitialTime_ s1 =
                   (if periodTotalFrames_ s =? 0 then time_ s else sceneInitialTime_ s)
                   /\ periodTotalFrames_ s1 <> 0).
  { destruct (periodTotalFrames_ s =? 0) eqn:Hz.
    - apply Z.eqb_eq in Hz. destruct (Hfirst Hz) as (E1 & E2). split; [exact E1 | lia].
    - apply Z.eqb_neq in Hz. destruct (Hlater Hz) as (E1 & E2). split; [exact E1 | lia]. }
  destruct Hstart as (Hstart & Hcounted).
  assert (Hlimit : sceneLimitReached now s1 =
            dgtb (dsub now (if periodTotalFrames_ s =? 0 then time_ s
                            else sceneInitialTime_ s))
                 (double_of_Z (BenchmarkMaxTime (userSettings_ s)))
            || (numberOfSamples_ s =? 0)).
  { unfold sceneLimitReached, timeLimitReached, sampleLimitReached.
    rewrite Hstart, Hu, Hn.
    apply Z.eqb_neq in Hcounted. rewrite Hcounted. reflexivity. }
  assert (Hcloses : closesAfterScene (userSettings_ s) =
            negb (BenchmarkNextScenes (userSettings_ s)) ||
            (SceneIndex (userSettings_ s) =? Z.of_nat (List.length AllScenes) - 1)).
  { unfold closesAfterScene, u64. unfold INT_MAX in Hlen.
    rewrite !Z.mod_small by lia. reflexivity. }
  destruct (CheckSceneLimits_spec now s1) as (s' & Hlim & Hsi & Hcr & Hclose).
  { rewrite Hu. unfold INT_MAX in *. lia. }
  exists s'. rewrite Hrun. split; [exact Hlim | ].
  rewrite Hu, Hc, Hw, Hlimit, Hcloses in *.
  split; [exact Hsi | ]. split; [exact Hcr | exact Hclose].
Qed.

End SceneAdvance.

(** Three calls in benchmark mode.  The fourth frame of a single-scene
    benchmark with a time limit of 5, the clock reading 6: the index goes
    from 0 to 1 and one close is requested.  The first frame of a two-scene
    benchmark whose sample budget is used up: the index goes from 0 to 1 and
    no close is requested.  The second frame of a long benchmark, no limit
    reached: nothing moves. *)
Lemma benchmark_scene_advance_single_scene :
  (exists s',
     CheckAndUpdateBenchmarkState (double_of_Z 4) (double_of_Z 6) benchmarkFourthFrame
       = Done tt s' /\
     SceneIndex (userSettings_ benchmarkFourthFrame) = 0 /\
     numberOfSamples_ benchmarkFourthFrame = 10 /\
     SceneIndex (userSettings_ s') = 1 /\
     closeRequests (calls_ benchmarkFourthFrame) = 0%nat /\
     closeRequests (calls_ s') = 1%nat) /\
  (exists s',
     CheckAndUpdateBenchmarkState (double_of_Z 0) (double_of_Z 1) convergedBenchmarkState
       = Done tt s' /\
     numberOfSamples_ convergedBenchmarkState = 0 /\
     SceneIndex (userSettings_ s') = 1 /\
     closeRequests (calls_ s') = 0%nat) /\
  (exists s',
     CheckAndUpdateBenchmarkState (double_of_Z 0) (double_of_Z 1) benchmarkSecondFrame
       = Done tt s' /\
     SceneIndex (userSettings_ s') = 0 /\
     closeRequests (calls_ s') = 0%nat).
Proof.
  split; [ | split].
  - edestruct (@benchmark_scene_advance (exampleCollaborators ["Cube"%string])
                 (double_of_Z 4) (double_of_Z 6) benchmarkFourthFrame)
      as (s' & Hrun & Hidx & Hclose & _).
    + reflexivity.
    + vm_compute. reflexivity.
    + vm_compute. split; [discriminate | reflexivity].
    + vm_compute. split; [discriminate | reflexivity].
    + vm_compute. reflexivity.
    + exists s'. split; [exact Hrun | ]. split; [reflexivity | ].
      split; [reflexivity | ]. split; [exact Hidx | ]. split; [reflexivity | exact Hclose].
  - edestruct (@benchmark_scene_advance (exampleCollaborators ["Cube"; "Cornell"]%string)
                 (double_of_Z 0) (double_of_Z 1) convergedBenchmarkState)
      as (s' & Hrun & Hidx & Hclose & _).
    + reflexivity.
    + vm_compute. reflexivity.
    + vm_compute. split; [discriminate | reflexivity].
    + vm_compute. split; [discriminate | reflexivity].
    + vm_compute. reflexivity.
    + exists s'. split; [exact Hrun | ]. split; [reflexivity | ].
      split; [exact Hidx | exact Hclose].
  - edestruct (@benchmark_scene_advance (exampleCollaborators ["Cube"%string])
                 (double_of_Z 0) (double_of_Z 1) benchmarkSecondFrame)
      as (s' & Hrun & Hidx & Hclose & _).
    + reflexivity.
    + vm_compute. reflexivity.
    + vm_compute. split; [discriminate | reflexivity].
    + vm_compute. split; [discriminate | reflexivity].
    + vm_compute. reflexivity.
    + exists s'. split; [exact Hrun | ]. split; [exact Hidx | exact Hclose].
Defined.

(** The comparison of line 268 is the one of the source's arithmetic: with a
    limit of 5, a scene that started at the clock reading 0.7 and a reading
    of 5.7, the rounded difference is 5 and the limit is not exceeded, and
    the index stays. *)
Lemma time_limit_compares_rounded_difference :
  dsub (tenths 57) (tenths 7) = double_of_Z 5 /\
  exists s',
    CheckAndUpdateBenchmarkState (tenths 7) (tenths 57)
      (set_time_ (tenths 57)
         (set_sceneInitialTime_ (tenths 7) (set_periodInitialTime_ (tenths 7)
            (set_periodTotalFrames_ 1 (set_numberOfSamples_ 10 benchmarkState)))))
      = Done tt s' /\
    SceneIndex (userSettings_ s') = 0 /\
    closeRequests (calls_ s') = 0%nat.
Proof.
  split; [vm_compute; reflexivity | ].
  eexists. split; [vm_compute; reflexivity | ]. split; reflexivity.
Qed.

(** The whole single-scene benchmark under the host loop, a frame every two
    time units: the run stops after the frame at clock 6, with exactly one
    close request and the index incremented exactly once. *)
Lemma benchmark_single_scene_run :
  exists s',
    Run (framesEvery 2 8 0) benchmarkState = Done tt s' /\
    time_ s' = double_of_Z 6 /\
    closeRequests (calls_ s') = 1%nat /\
    SceneIndex (userSettings_ s') = 1 /\
    ShouldClose (window_ s') = true.
Proof.
  eexists. split; [vm_compute; reflexivity | ]. repeat split; reflexivity.
Qed.

(** ** Operations that cannot end by an exception *)

Section Exceptions.

Context `{Collab : Collaborators}.

Lemma neverThrows_ret {A} (a : A) : neverThrows (@ret RayTracer A a).
Proof. intros s e s'. discriminate. Qed.

Lemma neverThrows_get : neverThrows (@get RayTracer).
Proof. intros s e s'. discriminate. Qed.

Lemma neverThrows_undefined {A} : neverThrows (@undefined RayTracer A).
Proof. intros s e s'. discriminate. Qed.

Lemma neverThrows_modify (g : RayTracer -> RayTracer) : neverThrows (modify g).
Proof. intros s e s'. discriminate. Qed.

Lemma neverThrows_bind {A B} (m : M RayTracer A) (k : A -> M RayTracer B) :
  neverThrows m -> (forall a, neverThrows (k a)) -> neverThrows (bind m k).
Proof.
  intros Hm Hk s e s'. unfold bind.
  destruct (m s) as [a s1 | e1 s1 | ] eqn:E.
  - apply Hk.
  - exfalso. exact (Hm s e1 s1 E).
  - discriminate.
Qed.

Lemma neverThrows_when (b : bool) (m : M RayTracer unit) :
  neverThrows m -> neverThrows (when b m).
Proof. intros Hm. destruct b; simpl; [exact Hm | apply neverThrows_ret]. Qed.

End Exceptions.

Ltac neverThrows_step :=
  first
    [ apply neverThrows_ret | apply neverThrows_get | apply neverThrows_undefined
    | apply neverThrows_modify
    | apply neverThrows_when
    | apply neverThrows_bind; [ | intros ]
    | match goal with
      | |- neverThrows (if ?b then _ else _) => destruct b
      | |- neverThrows (match ?x with _ => _ end) => destruct x
      end ].

(** ** A benchmark frame, by its stages *)

Section BenchmarkStages.

Context `{Collab : Collaborators}.

Lemma bind_Done_inv {A B} (m : M RayTracer A) (k : A -> M RayTracer B) s b s' :
  bind m k s = Done b s' ->
  exists a s1, m s = Done a s1 /\ k a s1 = Done b s'.
Proof.
  unfold bind. destruct (m s) as [a s1 | e s1 | ]; intros E; try discriminate.
  exists a, s1. split; [reflexivity | exact E].
Qed.

Lemma bind_ext_l {A B} (m m' : M RayTracer A) (k : A -> M RayTracer B) s :
  m s = m' s -> bind m k s = bind m' k s.
Proof. intros E. unfold bind. rewrite E. reflexivity. Qed.

Lemma u32_succ_neq (x : Z) : u32 (x + 1) <> u32 x.
Proof.
  unfold u32. change (2 ^ 32) with 4294967296. intros E.
  Z.to_euclidean_division_equations. lia.
Qed.

Lemma CheckAndUpdateBenchmarkState_benchmark prevTime now (s : RayTracer) :
  Benchmark (userSettings_ s) = true ->
  CheckAndUpdateBenchmarkState prevTime now s =
  bind (BenchmarkTimers prevTime) (fun _ => CheckSceneLimits now) s.
Proof.
  intros Hb. unfold CheckAndUpdateBenchmarkState, bind at 1, get. rewrite Hb. simpl.
  unfold BenchmarkTimers. symmetry. apply bind_assoc.
Qed.

Lemma beforeBenchmarkCheck_fields inp (s : RayTracer) :
  userSettings_ (beforeBenchmarkCheck inp s) = userSettings_ s /\
  sceneIndex_ (beforeBenchmarkCheck inp s) = sceneIndex_ s /\
  window_ (beforeBenchmarkCheck inp s) = window_ s /\
  numberOfSamples_ (beforeBenchmarkCheck inp s) = numberOfSamples_ (afterSampleCount s) /\
  sceneTimer (beforeBenchmarkCheck inp s) = sceneTimer s /\
  time_ (beforeBenchmarkCheck inp s) = TimeAtRender inp.
Proof.
  unfold beforeBenchmarkCheck, afterCameraUpdate, afterSampleCount, sceneTimer.
  destruct (needsAccumulationReset s); simpl; repeat split; reflexivity.
Qed.

(** A frame without scene change in benchmark mode, by its stages. *)
Lemma benchmark_frame_eq inp (s : RayTracer) :
  sceneChanged s = false ->
  Benchmark (userSettings_ s) = true ->
  DrawFrame inp s =
  bind (BenchmarkTimers (time_ s))
    (fun _ => bind (CheckSceneLimits (TimeAtLimitCheck inp))
                (fun _ => RenderTail inp (time_ s)))
    (beforeBenchmarkCheck inp s).
Proof.
  intros Hsc Hb.
  destruct (afterSampleCount_fields s) as (Hu & _ & _ & _ & _ & _ & Ht).
  rewrite (DrawFrame_steady_eq inp s Hsc), Application_DrawFrame_eq, Render_after_camera.
  cbn [time_ set_calls_]. rewrite Ht.
  fold (beforeBenchmarkCheck inp s).
  change (RenderAfterCamera inp (time_ s) (beforeBenchmarkCheck inp s))
    with (bind (CheckAndUpdateBenchmarkState (time_ s) (TimeAtLimitCheck inp))
            (fun _ => RenderTail inp (time_ s)) (beforeBenchmarkCheck inp s)).
  rewrite (bind_ext_l _
             (bind (BenchmarkTimers (time_ s))
                (fun _ => CheckSceneLimits (TimeAtLimitCheck inp)))).
  - apply bind_assoc.
  - apply CheckAndUpdateBenchmarkState_benchmark.
    destruct (beforeBenchmarkCheck_fields inp s) as (Hu' & _). rewrite Hu'. exact Hb.
Qed.

Lemma benchmark_frame_stages inp (s s' : RayTracer) :
  sceneChanged s = false ->
  Benchmark (userSettings_ s) = true ->
  DrawFrame inp s = Done tt s' ->
  exists s1 s2,
    BenchmarkTimers (time_ s) (beforeBenchmarkCheck inp s) = Done tt s1 /\
    CheckSceneLimits (TimeAtLimitCheck inp) s1 = Done tt s2 /\
    RenderTail inp (time_ s) s2 = Done tt s'.
Proof.
  intros Hsc Hb Hrun. rewrite (benchmark_frame_eq inp s Hsc Hb) in Hrun.
  destruct (bind_Done_inv _ _ _ _ _ Hrun) as ([] & s1 & H1 & Hrest).
  destruct (bind_Done_inv _ _ _ _ _ Hrest) as ([] & s2 & H2 & H3).
  exists s1, s2. repeat split; assumption.
Qed.

Lemma RenderTail_effects inp prevTime (s s' : RayTracer) :
  RenderTail inp prevTime s = Done tt s' ->
  userSettings_ s' = OverlayEdit inp (userSettings_ s) /\
  sceneIndex_ s' = sceneIndex_ s /\
  window_ s' = window_ s /\
  sceneTimer s' = sceneTimer s.
Proof.
  unfold RenderTail, sceneTimer, call, bind, get, modify, undefined. simpl.
  destruct (userInterface_ s); intros E; [ | discriminate].
  injection E as <-. repeat split; reflexivity.
Qed.

Lemma BenchmarkTimers_keeps_sceneIndex prevTime :
  keeps sceneIndex_ (BenchmarkTimers prevTime).
Proof.
  unfold BenchmarkTimers, InitialiseSceneTimers, ReportFrameRate, print.
  keeps_tac.
Qed.

Lemma CheckSceneLimits_keeps_sceneTimer now :
  keeps sceneTimer (CheckSceneLimits now).
Proof.
  unfold CheckSceneLimits, Window_Close_, print, call.
  keeps_tac.
Qed.

(** The limit test when the frame took no sample. *)
Lemma CheckSceneLimits_sample_limit now (s s' : RayTracer) :
  numberOfSamples_ s = 0 ->
  CheckSceneLimits now s = Done tt s' ->
  userSettings_ s' =
    with_SceneIndex (SceneIndex (userSettings_ s) + 1) (userSettings_ s) /\
  sceneIndex_ s' = sceneIndex_ s /\
  ShouldClose (window_ s') =
    ShouldClose (window_ s) || closesAfterScene (userSettings_ s).
Proof.
  intros Hn.
  unfold CheckSceneLimits, sampleLimitReached, Window_Close_, print, call, when,
    bind, get, modify, ret, undefined.
  rewrite Hn. change (0 =? 0) with true. rewrite orb_true_r.
  destruct (closesAfterScene (userSettings_ s)); simpl;
    destruct (SceneIndex (userSettings_ s) =? INT_MAX); intros E; try discriminate;
    injection E as <-; simpl; rewrite ?orb_true_r, ?orb_false_r;
    repeat split; reflexivity.
Qed.

Lemma Render_neverThrows inp : neverThrows (Render inp).
Proof.
  unfold Render, CheckAndUpdateBenchmarkState, InitialiseSceneTimers, ReportFrameRate,
    CheckSceneLimits, Window_Close_, print, call.
  repeat neverThrows_step.
Qed.

(** A frame without scene change that ends in a defined way ends normally. *)
Lemma steady_frame_Done inp (s s' : RayTracer) :
  sceneChanged s = false ->
  final_state (DrawFrame inp s) = Some s' ->
  DrawFrame inp s = Done tt s'.
Proof.
  intros Hsc Hfin.
  destruct (DrawFrame inp s) as [[] s1 | e s1 | s1] eqn:E.
  - simpl in Hfin. congruence.
  - exfalso. rewrite (DrawFrame_steady_eq inp s Hsc), Application_DrawFrame_eq in E.
    exact (Render_neverThrows inp _ e s1 E).
  - discriminate.
Qed.

End BenchmarkStages.

(** ** C6: frame-rate reports of the benchmark *)

Section BenchmarkPeriods.

Context `{Collab : Collaborators}.

Lemma reports_app (l1 l2 : list ConsoleLine) :
  reports (l1 ++ l2) = (reports l1 + reports l2)%nat.
Proof.
  induction l1 as [ | c l1 IH]; simpl; [reflexivity | ].
  destruct c; simpl; rewrite IH; reflexivity.
Qed.

(** The bookkeeping of lines 241-264, by cases. *)
Lemma BenchmarkTimers_cases (prevTime : double) (s s' : RayTracer) :
  BenchmarkTimers prevTime s = Done tt s' ->
  time_ s' = time_ s /\
  (periodTotalFrames_ s = 0 ->
   reportCount s' = reportCount s /\
   periodInitialTime_ s' = time_ s /\ periodTotalFrames_ s' = 1) /\
  (periodTotalFrames_ s <> 0 ->
   exists b,
     boundaryCrossed (periodInitialTime_ s) prevTime (time_ s) = Some b /\
     reportCount s' = reportCount s + (if b then 1 else 0) /\
     periodInitialTime_ s' = (if b then time_ s else periodInitialTime_ s) /\
     periodTotalFrames_ s' = (if b then 1 else add32 (periodTotalFrames_ s) 1)).
Proof.
  unfold BenchmarkTimers, InitialiseSceneTimers, ReportFrameRate, boundaryCrossed,
    reportCount, print, when, bind, get, modify, ret, undefined.
  destruct (periodTotalFrames_ s =? 0) eqn:Hz.
  - apply Z.eqb_eq in Hz.
    destruct (nth_error AllScenes (Z.to_nat (sceneIndex_ s))) as [(name & create) | ];
      simpl; [ | discriminate].
    rewrite Hz. simpl. intros E. injection E as <-. simpl.
    rewrite !reports_app. simpl. rewrite !Nat.add_0_r.
    split; [reflexivity | ].
    split; [intros _; repeat split; rewrite ?Hz; reflexivity | intros Hnz; contradiction].
  - simpl. rewrite Hz. apply Z.eqb_neq in Hz.
    destruct (cast_u64 (ddiv (dsub prevTime (periodInitialTime_ s)) (double_of_Z 5)))
      as [a | ]; [ | discriminate].
    destruct (cast_u64 (ddiv (dsub (time_ s) (periodInitialTime_ s)) (double_of_Z 5)))
      as [b | ]; [ | discriminate].
    destruct (a =? b); simpl; intros E; injection E as <-; simpl;
      (split; [reflexivity | ]);
      (split; [intros Hnz; contradiction | intros _]);
      eexists; (split; [reflexivity | ]); simpl;
      rewrite ?reports_app; simpl; repeat split; try reflexivity; lia.
Qed.

Ltac keeps_period_step :=
  first
    [ apply keeps_modify; intros; unfold periodFields, reportCount; simpl;
      rewrite ?reports_app; simpl; rewrite ?Nat.add_0_r; reflexivity
    | keeps_step ].

Lemma CheckSceneLimits_keeps_period now : keeps periodFields (CheckSceneLimits now).
Proof.
  unfold CheckSceneLimits, Window_Close_, print, call.
  repeat keeps_period_step.
Qed.

Lemma RenderTail_keeps_period inp prevTime :
  keeps periodFields (RenderTail inp prevTime).
Proof. unfold RenderTail, call. repeat keeps_period_step. Qed.

(** What the frame hands to the bookkeeping: the clock is the reading of this
    frame, the window and the console are those the frame began with. *)
Lemma beforeBenchmarkCheck_period inp (s : RayTracer) :
  periodInitialTime_ (beforeBenchmarkCheck inp s) = periodInitialTime_ s /\
  periodTotalFrames_ (beforeBenchmarkCheck inp s) = periodTotalFrames_ s /\
  reportCount (beforeBenchmarkCheck inp s) = reportCount s /\
  time_ (beforeBenchmarkCheck inp s) = TimeAtRender inp.
Proof.
  unfold beforeBenchmarkCheck, afterCameraUpdate, afterSampleCount, reportCount.
  destruct (needsAccumulationReset s); simpl; repeat split; reflexivity.
Qed.

(** One benchmark frame, seen from the period bookkeeping. *)
Lemma DrawFrame_benchmark_period inp (s s' : RayTracer) :
  sceneChanged s = false ->
  Benchmark (userSettings_ s) = true ->
  final_state (DrawFrame inp s) = Some s' ->
  time_ s' = TimeAtRender inp /\
  (periodTotalFrames_ s = 0 ->
   reportCount s' = reportCount s /\
   periodInitialTime_ s' = TimeAtRender inp /\ periodTotalFrames_ s' = 1) /\
  (periodTotalFrames_ s <> 0 ->
   exists b,
     boundaryCrossed (periodInitialTime_ s) (time_ s) (TimeAtRender inp) = Some b /\
     reportCount s' = reportCount s + (if b then 1 else 0) /\
     periodInitialTime_ s' = (if b then TimeAtRender inp else periodInitialTime_ s) /\
     periodTotalFrames_ s' = (if b then 1 else add32 (periodTotalFrames_ s) 1)).
Proof.
  intros Hsc Hb Hfin.
  pose proof (steady_frame_Done inp s s' Hsc Hfin) as Hrun.
  destruct (benchmark_frame_stages inp s s' Hsc Hb Hrun) as (s1 & s2 & H1 & H2 & H3).
  destruct (beforeBenchmarkCheck_period inp s) as (Hp0 & Hf0 & Hr0 & Ht0).
  remember (beforeBenchmarkCheck inp s) as s0 eqn:Hs0. clear Hs0.
  assert (Hk2 : periodFields s2 = periodFields s1).
  { apply (CheckSceneLimits_keeps_period (TimeAtLimitCheck inp)). rewrite H2. reflexivity. }
  assert (Hk3 : periodFields s' = periodFields s2).
  { apply (RenderTail_keeps_period inp (time_ s)). rewrite H3. reflexivity. }
  rewrite Hk2 in Hk3. unfold periodFields in Hk3.
  injection Hk3 as Htime Hstart Hframes Hcount.
  destruct (BenchmarkTimers_cases (time_ s) s0 s1 H1) as (Ht1 & Hfirst & Hlater).
  rewrite Hp0, Hf0, Hr0, Ht0 in *. rewrite Htime, Hstart, Hframes, Hcount.
  split; [exact Ht1 | ]. split; assumption.
Qed.

(** Over a run of benchmark frames the reports are those the clock readings
    alone determine. *)
Lemma DrawFrames_window_reports (inputs : list FrameInput) :
  forall (s s' : RayTracer),
    benchmarkRun inputs s ->
    final_state (DrawFrames inputs s) = Some s' ->
    reportCount s' =
    reportCount s +
    Z.of_nat (windowReports (periodInitialTime_ s) (periodTotalFrames_ s) (time_ s)
                (map TimeAtRender inputs)).
Proof.
  induction inputs as [ | inp rest IH]; intros s s' Hrun Hfin.
  - simpl in Hfin. injection Hfin as <-. simpl. lia.
  - destruct Hrun as (Hsc & Hb & Hrest). simpl in Hfin.
    destruct (bind_final _ _ _ _ Hfin) as [(a & s1 & E1 & E2) | (e & E1)].
    + assert (Hfin1 : final_state (DrawFrame inp s) = Some s1)
        by (rewrite E1; reflexivity).
      rewrite Hfin1 in Hrest.
      destruct (DrawFrame_benchmark_period inp s s1 Hsc Hb Hfin1)
        as (Ht & Hfirst & Hlater).
      rewrite (IH s1 s' Hrest E2), Ht.
      cbn [map windowReports].
      destruct (periodTotalFrames_ s =? 0) eqn:Hz.
      * apply Z.eqb_eq in Hz. destruct (Hfirst Hz) as (Hr & Hp & Hf).
        rewrite Hr, Hp, Hf. reflexivity.
      * apply Z.eqb_neq in Hz. destruct (Hlater Hz) as (b & Hcross & Hr & Hp & Hf).
        rewrite Hcross, Hr, Hp, Hf. destruct b; lia.
    + exfalso.
      assert (Hfin1 : final_state (DrawFrame inp s) = Some s')
        by (rewrite E1; reflexivity).
      rewrite (steady_frame_Done inp s s' Hsc Hfin1) in E1. discriminate.
Qed.

(** C6, amended.  For every sequence of benchmark frames, whatever the frame
    times: a frame that finds no frame counted opens a period window at its
    own clock reading and reports nothing; any other frame emits exactly one
    frame-rate report when the boundary test holds and none otherwise, the
    test comparing the integer division by the period length of the previous
    frame's elapsed time with that of the current frame's elapsed time, both
    measured from the start of the window in double arithmetic.  A report
    restarts the window at the current reading and the frame count at this
    frame; without one the window stays and the count goes up by one.  Over
    the whole sequence the number of reports is therefore the number of
    boundary crossings counted window by window from the clock readings
    ([windowReports]), each window starting at the last report rather than
    at a multiple of the period. *)
Theorem frame_rate_reports_by_window :
  (forall inp (s s' : RayTracer),
     sceneChanged s = false ->
     Benchmark (userSettings_ s) = true ->
     final_state (DrawFrame inp s) = Some s' ->
     (periodTotalFrames_ s = 0 ->
      reportCount s' = reportCount s /\
      periodInitialTime_ s' = TimeAtRender inp /\ periodTotalFrames_ s' = 1) /\
     (periodTotalFrames_ s <> 0 ->
      exists b,
        boundaryCrossed (periodInitialTime_ s) (time_ s) (TimeAtRender inp) = Some b /\
        reportCount s' = reportCount s + (if b then 1 else 0) /\
        periodInitialTime_ s' = (if b then TimeAtRender inp else periodInitialTime_ s) /\
        periodTotalFrames_ s' = (if b then 1 else add32 (periodTotalFrames_ s) 1))) /\
  (forall (inputs : list FrameInput) (s s' : RayTracer),
     benchmarkRun inputs s ->
     final_state (DrawFrames inputs s) = Some s' ->
     reportCount s' =
     reportCount s +
     Z.of_nat (windowReports (periodInitialTime_ s) (periodTotalFrames_ s) (time_ s)
                 (map TimeAtRender inputs))).
Proof.
  split.
  - intros inp s s' Hsc Hb Hfin.
    destruct (DrawFrame_benchmark_period inp s s' Hsc Hb Hfin) as (_ & Hfirst & Hlater).
    split; assumption.
  - intros inputs. apply DrawFrames_window_reports.
Qed.

End BenchmarkPeriods.

(** Twenty-one benchmark frames, one every four time units: the ten reports
    are those of the windows, which start at the clock readings 0, 8, 16 and
    so on. *)
Lemma frame_rate_reports_by_window_example :
  exists s',
    DrawFrames (framesEvery 4 21 0) longBenchmarkState = Done tt s' /\
    reportCount s' = 10 /\
    periodInitialTime_ s' = double_of_Z 80.
Proof.
  eexists. split; [vm_compute; reflexivity | ].
  split; [ | reflexivity].
  rewrite (proj2 (@frame_rate_reports_by_window (exampleCollaborators ["Cube"%string]))
             (framesEvery 4 21 0) longBenchmarkState _).
  - vm_compute. reflexivity.
  - vm_compute. repeat split; reflexivity.
  - vm_compute. reflexivity.
Defined.

(** C6 as stated fails: with a frame every four time units a report is made
    every eight, at clock 8, 16, ..., 80.  After 80 time units there are 10
    reports, where [floor(80 / 5)] is 16. *)
Lemma reports_fall_short_of_period_count :
  exists s',
    DrawFrames (framesEvery 4 21 0) longBenchmarkState = Done tt s' /\
    time_ longBenchmarkState = double_of_Z 0 /\
    time_ s' = double_of_Z 80 /\
    reportCount longBenchmarkState = 0 /\
    reportCount s' = 10 /\
    80 / 5 = 16 /\
    ~ (16 - 1 <= reportCount s' <= 16 + 1).
Proof.
  eexists. split; [vm_compute; reflexivity | ].
  repeat split; try reflexivity.
  vm_compute. intros (H & _). apply H. reflexivity.
Qed.

(** The boundary test is the one of the source's arithmetic: between the
    clock readings 0.1 and 5.1 the rounded difference is 5, the quotients are
    0 and 1, and the second frame reports. *)
Lemma report_at_rounded_period :
  dsub (tenths 51) (tenths 1) = double_of_Z 5 /\
  boundaryCrossed (tenths 1) (tenths 1) (tenths 51) = Some true /\
  exists s',
    DrawFrames [frameAtClock (tenths 1); frameAtClock (tenths 51)] longBenchmarkState
      = Done tt s' /\
    reportCount s' = 1.
Proof.
  split; [vm_compute; reflexivity | ]. split; [vm_compute; reflexivity | ].
  eexists. split; [vm_compute; reflexivity | reflexivity].
Qed.

(** * Further properties of the translation unit *)

(** ** Construction and the swap-chain hooks *)

Section SwapChainHooks.

Context `{Collab : Collaborators}.

(** X1.  The framebuffer check is the one error of construction and of
    swap-chain creation, and it is raised late.  The constructor stores the
    settings first; [CreateSwapChain] first creates the base swap chain,
    rebuilds the overlay (which starts without focus) and raises the reset
    flag, touching nothing else.  Either then ends by the exception, carrying
    the requested and the actual size, exactly when benchmark mode and
    fullscreen are on and width or height differ, and normally otherwise, in
    the same state. *)
Theorem framebuffer_check_raised_after_setup (u : UserSettings) (s : RayTracer) :
  (RayTracer_ctor u s =
   if framebufferMismatch u (window_ s)
   then Thrown (FramebufferSizeMismatch
                  (mkExtent2D (Width (Config (window_ s))) (Height (Config (window_ s))))
                  (FramebufferSize (window_ s)))
               (set_userSettings_ u s)
   else Done tt (set_userSettings_ u s)) /\
  exists s1,
    userInterface_ s1 = Some (mkUserInterface false false) /\
    resetAccumulation_ s1 = true /\
    calls_ s1 = calls_ s ++ [Application_CreateSwapChain] /\
    renderState s1 = renderState s /\
    userSettings_ s1 = userSettings_ s /\
    modelViewController_ s1 = modelViewController_ s /\
    window_ s1 = window_ s /\
    CreateSwapChain s =
    if framebufferMismatch (userSettings_ s) (window_ s)
    then Thrown (FramebufferSizeMismatch
                   (mkExtent2D (Width (Config (window_ s))) (Height (Config (window_ s))))
                   (FramebufferSize (window_ s)))
                s1
    else Done tt s1.
Proof.
  split.
  - unfold RayTracer_ctor, CheckFramebufferSize, framebufferMismatch, bind, get, modify,
      throw, ret. simpl.
    destruct (Benchmark u && Fullscreen (Config (window_ s)) && _); reflexivity.
  - exists (set_resetAccumulation_ true
              (set_userInterface_ (Some (mkUserInterface false false))
                 (set_calls_ (calls_ s ++ [Application_CreateSwapChain]) s))).
    do 7 (split; [reflexivity | ]).
    unfold CreateSwapChain, CheckFramebufferSize, framebufferMismatch, call, bind, get,
      modify, throw, ret. simpl.
    destruct (Benchmark (userSettings_ s) && Fullscreen (Config (window_ s)) && _);
      reflexivity.
Qed.

(** X2.  Recreating the swap chain ([DeleteSwapChain] followed by
    [CreateSwapChain]) always reaches a final state, in which the scene, the
    sample counters, the settings and their snapshot, the controller, the
    clock and the benchmark bookkeeping are what they were; the overlay has
    been replaced by a fresh one, a reset is pending, and the base class saw
    the teardown before the creation. *)
Theorem swap_chain_recreation_keeps_render_state (s : RayTracer) :
  exists s',
    final_state ((DeleteSwapChain ;; CreateSwapChain) s) = Some s' /\
    renderState s' = renderState s /\
    userSettings_ s' = userSettings_ s /\
    modelViewController_ s' = modelViewController_ s /\
    userInterface_ s' = Some (mkUserInterface false false) /\
    resetAccumulation_ s' = true /\
    calls_ s' = calls_ s ++ [Application_DeleteSwapChain; Application_CreateSwapChain].
Proof.
  unfold DeleteSwapChain, CreateSwapChain, CheckFramebufferSize, call, bind, get, modify,
    throw, ret. simpl.
  match goal with
  | |- context [if ?c then _ else _] => destruct c
  end; simpl; eexists; (split; [reflexivity | ]); simpl;
    rewrite <- ?app_assoc; repeat split; reflexivity.
Qed.

End SwapChainHooks.

(** ** The input callbacks *)

Ltac split_branches :=
  repeat (simpl;
          match goal with
          | |- context [if ?b then _ else _] => destruct b eqn:?
          | |- context [match ?x with Some _ => _ | None => _ end] => destruct x eqn:?
          end).

Section InputCallbacks.

Context `{Collab : Collaborators}.

Lemma OnKey_keeps_renderState key scancode action mods :
  keeps renderState (OnKey key scancode action mods).
Proof. unfold OnKey, Window_Close_, call. keeps_tac. Qed.

Lemma OnCursorPosition_keeps_renderState xpos ypos :
  keeps renderState (OnCursorPosition xpos ypos).
Proof. unfold OnCursorPosition. keeps_tac. Qed.

Lemma OnMouseButton_keeps_renderState button action mods :
  keeps renderState (OnMouseButton button action mods).
Proof. unfold OnMouseButton. keeps_tac. Qed.

Lemma OnKey_keeps_overlay key scancode action mods :
  keeps (fun s => (userInterface_ s, fixedSettings (userSettings_ s)))
    (OnKey key scancode action mods).
Proof. unfold OnKey, Window_Close_, call. keeps_tac. Qed.

Lemma OnKey_raises_only key scancode action mods (s s' : RayTracer) :
  final_state (OnKey key scancode action mods s) = Some s' ->
  resetAccumulation_ s = true -> resetAccumulation_ s' = true.
Proof.
  intros Hfin Hflag. revert Hfin.
  unfold OnKey, Window_Close_, call, when, bind, get, modify, ret, undefined.
  split_branches; intros E; try discriminate; injection E as <-; simpl;
    rewrite ?Hflag; reflexivity.
Qed.

Lemma OnCursorPosition_raises_only xpos ypos (s s' : RayTracer) :
  final_state (OnCursorPosition xpos ypos s) = Some s' ->
  resetAccumulation_ s = true -> resetAccumulation_ s' = true.
Proof.
  intros Hfin Hflag. revert Hfin.
  unfold OnCursorPosition, bind, get, modify, ret, undefined.
  split_branches; intros E; try discriminate; injection E as <-; simpl;
    rewrite ?Hflag; reflexivity.
Qed.

Lemma OnMouseButton_raises_only button action mods (s s' : RayTracer) :
  final_state (OnMouseButton button action mods s) = Some s' ->
  resetAccumulation_ s = true -> resetAccumulation_ s' = true.
Proof.
  intros Hfin Hflag. revert Hfin.
  unfold OnMouseButton, bind, get, modify, ret, undefined.
  split_branches; intros E; try discriminate; injection E as <-; simpl;
    rewrite ?Hflag; reflexivity.
Qed.

Lemma pointer_callbacks_keep_settings (s s' : RayTracer) :
  (forall xpos ypos,
     final_state (OnCursorPosition xpos ypos s) = Some s' ->
     userSettings_ s' = userSettings_ s /\ isWireFrame_ s' = isWireFrame_ s /\
     userInterface_ s' = userInterface_ s /\ window_ s' = window_ s /\
     calls_ s' = calls_ s) /\
  (forall button action mods,
     final_state (OnMouseButton button action mods s) = Some s' ->
     userSettings_ s' = userSettings_ s /\ isWireFrame_ s' = isWireFrame_ s /\
     userInterface_ s' = userInterface_ s /\ window_ s' = window_ s /\
     calls_ s' = calls_ s).
Proof.
  split; intros *;
    unfold OnCursorPosition, OnMouseButton, bind, get, modify, ret, undefined;
    split_branches; intros E; try discriminate; injection E as <-; simpl;
    repeat split; congruence.
Qed.

(** X3.  An input callback that ends leaves the scene, the sample counters,
    the settings snapshot, the clock, the benchmark bookkeeping and the
    console alone, keeps the overlay, changes no setting other than the three
    switches of the key handler, and never lowers the reset flag: a reset that
    is pending before the callback is pending after it. *)
Theorem input_callbacks_only_raise_reset (ev : HostEvent) (s s' : RayTracer) :
  (forall inp, ev <> FrameEvent inp) ->
  final_state (Dispatch ev s) = Some s' ->
  renderState s' = renderState s /\
  userInterface_ s' = userInterface_ s /\
  fixedSettings (userSettings_ s') = fixedSettings (userSettings_ s) /\
  (resetAccumulation_ s = true -> resetAccumulation_ s' = true).
Proof.
  intros Hev Hfin. destruct ev as [inp | key scancode action mods | xpos ypos
                                  | button action mods]; simpl in Hfin.
  - exfalso. exact (Hev inp eq_refl).
  - pose proof (OnKey_keeps_overlay _ _ _ _ _ _ Hfin) as Hk.
    split; [exact (OnKey_keeps_renderState _ _ _ _ _ _ Hfin) | ].
    split; [exact (f_equal fst Hk) | ].
    split; [exact (f_equal snd Hk) | ].
    exact (OnKey_raises_only _ _ _ _ _ _ Hfin).
  - destruct (proj1 (pointer_callbacks_keep_settings s s') _ _ Hfin)
      as (Hu & _ & Hui & _).
    split; [exact (OnCursorPosition_keeps_renderState _ _ _ _ Hfin) | ].
    split; [exact Hui | ]. split; [rewrite Hu; reflexivity | ].
    exact (OnCursorPosition_raises_only _ _ _ _ Hfin).
  - destruct (proj2 (pointer_callbacks_keep_settings s s') _ _ _ Hfin)
      as (Hu & _ & Hui & _).
    split; [exact (OnMouseButton_keeps_renderState _ _ _ _ _ Hfin) | ].
    split; [exact Hui | ]. split; [rewrite Hu; reflexivity | ].
    exact (OnMouseButton_raises_only _ _ _ _ _ Hfin).
Qed.

(** X4.  Only a key event outside benchmark mode can change a setting or the
    wireframe switch: a cursor or mouse-button callback never does, and in
    benchmark mode a key event, whatever the key and the action, does not
    either. *)
Theorem settings_change_only_by_keys_outside_benchmark (ev : HostEvent)
  (s s' : RayTracer) :
  (forall inp, ev <> FrameEvent inp) ->
  (Benchmark (userSettings_ s) = true \/
   forall key scancode action mods, ev <> KeyEvent key scancode action mods) ->
  final_state (Dispatch ev s) = Some s' ->
  userSettings_ s' = userSettings_ s /\ isWireFrame_ s' = isWireFrame_ s.
Proof.
  intros Hev Hmode Hfin. destruct ev as [inp | key scancode action mods | xpos ypos
                                        | button action mods]; simpl in Hfin.
  - exfalso. exact (Hev inp eq_refl).
  - destruct Hmode as [Hb | Hno]; [ | exfalso; exact (Hno _ _ _ _ eq_refl)].
    revert Hfin.
    unfold OnKey, Window_Close_, call, when, bind, get, modify, ret, undefined.
    destruct (userInterface_ s) as [ui | ]; [ | discriminate].
    destruct (WantsToCaptureKeyboard ui);
      [simpl; intros E; injection E as <-; split; reflexivity | ].
    destruct (action =? GLFW_PRESS); [destruct (key =? GLFW_KEY_ESCAPE) | ];
      simpl; rewrite ?Hb; simpl; intros E; injection E as <-; split; reflexivity.
  - destruct (proj1 (pointer_callbacks_keep_settings s s') _ _ Hfin) as (Hu & Hw & _).
    split; assumption.
  - destruct (proj2 (pointer_callbacks_keep_settings s s') _ _ _ Hfin) as (Hu & Hw & _).
    split; assumption.
Qed.

End InputCallbacks.

(** A reset is pending, W is pressed: the reset is still pending. *)
Lemma input_callbacks_only_raise_reset_example :
  exists s',
    OnKey GLFW_KEY_W 0 GLFW_PRESS 0 pendingResetState = Done tt s' /\
    resetAccumulation_ s' = true /\
    renderState s' = renderState pendingResetState.
Proof.
  eexists. split; [vm_compute; reflexivity | ].
  destruct (@input_callbacks_only_raise_reset (exampleCollaborators ["Cube"%string])
              (KeyEvent GLFW_KEY_W 0 GLFW_PRESS 0) pendingResetState _
              ltac:(discriminate) eq_refl) as (Hr & _ & _ & Hflag).
  split; [exact (Hflag eq_refl) | exact Hr].
Defined.

(** R pressed during a benchmark: ray tracing stays as it was. *)
Lemma settings_change_only_by_keys_outside_benchmark_example :
  exists s',
    OnKey GLFW_KEY_R 0 GLFW_PRESS 0 benchmarkState = Done tt s' /\
    userSettings_ s' = userSettings_ benchmarkState /\
    isWireFrame_ s' = isWireFrame_ benchmarkState.
Proof.
  eexists. split; [vm_compute; reflexivity | ].
  exact (@settings_change_only_by_keys_outside_benchmark
           (exampleCollaborators ["Cube"%string])
           (KeyEvent GLFW_KEY_R 0 GLFW_PRESS 0) benchmarkState _
           ltac:(discriminate) (or_introl eq_refl) eq_refl).
Defined.

Section KeySwitches.

Context `{Collab : Collaborators}.

Lemma OnKey_switches key scancode action mods (s s' : RayTracer) ui :
  userInterface_ s = Some ui ->
  WantsToCaptureKeyboard ui = false ->
  final_state (OnKey key scancode action mods s) = Some s' ->
  (userSettings_ s', isWireFrame_ s') = afterKey key action (userSettings_ s, isWireFrame_ s).
Proof.
  intros Hui Hkb. unfold OnKey, Window_Close_, call, when, bind, get, modify, ret, afterKey.
  rewrite Hui, Hkb.
  destruct (action =? GLFW_PRESS); simpl;
    [ | intros E; injection E as <-; reflexivity].
  destruct (key =? GLFW_KEY_ESCAPE); simpl;
    destruct (Benchmark (userSettings_ s)); simpl;
    try (intros E; injection E as <-; reflexivity).
  all: destruct (key =? GLFW_KEY_F1); simpl;
    try (intros E; injection E as <-; reflexivity).
  all: destruct (key =? GLFW_KEY_F2); simpl;
    try (intros E; injection E as <-; reflexivity).
  all: destruct (key =? GLFW_KEY_R); simpl;
    try (intros E; injection E as <-; reflexivity).
  all: destruct (key =? GLFW_KEY_P); simpl; intros E; injection E as <-; reflexivity.
Qed.

Lemma afterKey_involutive key action (p : UserSettings * bool) :
  afterKey key action (afterKey key action p) = p.
Proof.
  destruct p as (u & w).
  destruct u as [bm bn bt si rt ar ns nb mx fov ap fd gc ss so].
  unfold afterKey. simpl.
  destruct (action =? GLFW_PRESS) eqn:Ha; simpl; [ | rewrite ?Ha; reflexivity].
  destruct bm; simpl; [rewrite ?Ha; reflexivity | ].
  destruct (key =? GLFW_KEY_F1) eqn:H1; simpl;
    [rewrite ?Ha, ?H1; simpl; rewrite negb_involutive; reflexivity | ].
  destruct (key =? GLFW_KEY_F2) eqn:H2; simpl;
    [rewrite ?Ha, ?H1, ?H2; simpl; rewrite negb_involutive; reflexivity | ].
  destruct (key =? GLFW_KEY_R) eqn:H3; simpl;
    [rewrite ?Ha, ?H1, ?H2, ?H3; simpl; rewrite negb_involutive; reflexivity | ].
  destruct (key =? GLFW_KEY_P) eqn:H4; simpl;
    rewrite ?Ha, ?H1, ?H2, ?H3, ?H4; simpl; rewrite ?negb_involutive; reflexivity.
Qed.

(** X5.  The switches of the key handler are toggles: the same key with the
    same action delivered twice in a row leaves every setting and the
    wireframe switch as they were before the first delivery, for every key
    and in either mode. *)
Theorem key_twice_restores_switches key action scancode mods scancode' mods'
  (s s1 s2 : RayTracer) :
  final_state (OnKey key scancode action mods s) = Some s1 ->
  final_state (OnKey key scancode' action mods' s1) = Some s2 ->
  userSettings_ s2 = userSettings_ s /\ isWireFrame_ s2 = isWireFrame_ s.
Proof.
  intros H1 H2.
  pose proof (f_equal fst (OnKey_keeps_overlay _ _ _ _ _ _ H1)) as Hui1. simpl in Hui1.
  destruct (userInterface_ s) as [ui | ] eqn:Hui.
  - destruct (WantsToCaptureKeyboard ui) eqn:Hkb.
    + rewrite (OnKey_ignored_with_keyboard_focus _ _ _ _ s ui Hui Hkb) in H1.
      injection H1 as <-.
      rewrite (OnKey_ignored_with_keyboard_focus _ _ _ _ s ui Hui Hkb) in H2.
      injection H2 as <-. split; reflexivity.
    + pose proof (OnKey_switches _ _ _ _ s s1 ui Hui Hkb H1) as E1.
      pose proof (OnKey_switches _ _ _ _ s1 s2 ui Hui1 Hkb H2) as E2.
      rewrite E1, afterKey_involutive in E2. injection E2 as -> ->. split; reflexivity.
  - exfalso. revert H1. unfold OnKey, bind, get, undefined. rewrite Hui. discriminate.
Qed.

(** X6.  Escape, pressed while the overlay does not hold the keyboard, asks
    the window to close, exactly once, in benchmark mode as outside it.  No
    other input event asks for it: any other callback that ends leaves the
    window and the trace of calls as they were. *)
Theorem escape_is_the_only_closing_input (ev : HostEvent) (s : RayTracer) :
  (forall scancode mods ui,
     userInterface_ s = Some ui ->
     WantsToCaptureKeyboard ui = false ->
     exists s',
       OnKey GLFW_KEY_ESCAPE scancode GLFW_PRESS mods s = Done tt s' /\
       ShouldClose (window_ s') = true /\
       closeRequests (calls_ s') = S (closeRequests (calls_ s))) /\
  (forall s',
     (forall inp, ev <> FrameEvent inp) ->
     isEscapePress ev = false ->
     final_state (Dispatch ev s) = Some s' ->
     window_ s' = window_ s /\ calls_ s' = calls_ s).
Proof.
  split.
  - intros scancode mods ui Hui Hkb.
    unfold OnKey, Window_Close_, call, when, bind, get, modify, ret.
    rewrite Hui, Hkb. simpl.
    destruct (Benchmark (userSettings_ s)); simpl; eexists;
      (split; [reflexivity | ]); simpl; rewrite closeRequests_app; simpl;
      (split; [reflexivity | lia]).
  - intros s' Hev Hesc Hfin.
    destruct ev as [inp | key scancode action mods | xpos ypos | button action mods];
      simpl in Hfin.
    + exfalso. exact (Hev inp eq_refl).
    + simpl in Hesc. revert Hfin.
      unfold OnKey, Window_Close_, call, when, bind, get, modify, ret, undefined.
      destruct (userInterface_ s) as [ui | ]; [ | discriminate].
      destruct (WantsToCaptureKeyboard ui);
        [simpl; intros E; injection E as <-; split; reflexivity | ].
      destruct (action =? GLFW_PRESS);
        [rewrite andb_true_r in Hesc; rewrite Hesc | ];
        split_branches; intros E; injection E as <-; split; reflexivity.
    + destruct (proj1 (pointer_callbacks_keep_settings s s') _ _ Hfin)
        as (_ & _ & _ & Hw & Hc). split; assumption.
    + destruct (proj2 (pointer_callbacks_keep_settings s s') _ _ _ Hfin)
        as (_ & _ & _ & Hw & Hc). split; assumption.
Qed.

End KeySwitches.

(** F1 pressed twice outside benchmark mode. *)
Lemma key_twice_restores_switches_example :
  exists s1 s2,
    OnKey GLFW_KEY_F1 0 GLFW_PRESS 0 pendingResetState = Done tt s1 /\
    ShowSettings (userSettings_ s1) = true /\
    OnKey GLFW_KEY_F1 0 GLFW_PRESS 0 s1 = Done tt s2 /\
    userSettings_ s2 = userSettings_ pendingResetState /\
    isWireFrame_ s2 = isWireFrame_ pendingResetState.
Proof.
  eexists. eexists.
  split; [vm_compute; reflexivity | ]. split; [reflexivity | ].
  split; [vm_compute; reflexivity | ].
  exact (@key_twice_restores_switches (exampleCollaborators ["Cube"%string])
           GLFW_KEY_F1 GLFW_PRESS 0 0 0 0 pendingResetState _ _ eq_refl eq_refl).
Defined.

(** Escape pressed during a benchmark. *)
Lemma escape_is_the_only_closing_input_example :
  exists s',
    OnKey GLFW_KEY_ESCAPE 0 GLFW_PRESS 0 benchmarkState = Done tt s' /\
    ShouldClose (window_ s') = true /\
    closeRequests (calls_ s') = 1%nat.
Proof.
  exact (proj1 (@escape_is_the_only_closing_input (exampleCollaborators ["Cube"%string])
                  (KeyEvent GLFW_KEY_ESCAPE 0 GLFW_PRESS 0) benchmarkState)
           0 0 (mkUserInterface false false) eq_refl eq_refl).
Defined.

(** ** Scenes *)

Section Scenes.

Context `{Collab : Collaborators}.

Lemma LoadScene_textured (i : Z) (s s' : RayTracer) :
  final_state (LoadScene i s) = Some s' -> sceneTextured s'.
Proof.
  unfold LoadScene, call, bind, get, modify, undefined, sceneTextured.
  destruct (nth_error AllScenes _) as [(name & create) | ]; [ | discriminate].
  destruct (create (cameraInitialSate_ s)) as ((models & textures) & init).
  simpl. intros E. injection E as <-. simpl.
  destruct textures; simpl; discriminate.
Qed.

Lemma DrawFrame_sceneChange_textured inp (s s' : RayTracer) :
  sceneChanged s = true ->
  final_state (DrawFrame inp s) = Some s' ->
  sceneTextured s'.
Proof.
  intros Hsc.
  unfold DrawFrame, LoadScene, DeleteSwapChain, CreateSwapChain, CheckFramebufferSize,
    call, bind, get, modify, throw, ret, undefined, sceneTextured.
  rewrite Hsc. simpl.
  destruct (nth_error AllScenes _) as [(name & create) | ]; [ | discriminate].
  destruct (create (cameraInitialSate_ s)) as ((models & textures) & init).
  simpl.
  match goal with
  | |- context [if ?c then _ else _] => destruct c
  end; simpl; intros E; injection E as <-; simpl; destruct textures; discriminate.
Qed.

Lemma steady_frame_keeps_sceneState inp :
  keeps sceneState
    (CheckAccumulationReset ;;
     modify (fun s => set_previousSettings_ (userSettings_ s) s) ;;
     UpdateSampleCount ;;
     Application_DrawFrame_ inp).
Proof.
  unfold CheckAccumulationReset, UpdateSampleCount, Application_DrawFrame_, Render,
    CheckAndUpdateBenchmarkState, InitialiseSceneTimers, ReportFrameRate,
    CheckSceneLimits, Window_Close_, print, call.
  keeps_tac.
Qed.

Lemma DrawFrame_steady_keeps_sceneState inp (s s' : RayTracer) :
  sceneChanged s = false ->
  final_state (DrawFrame inp s) = Some s' ->
  sceneState s' = sceneState s.
Proof.
  intros Hsc. unfold DrawFrame, bind at 1, get. rewrite Hsc.
  apply steady_frame_keeps_sceneState.
Qed.

(** X7.  Whatever frames and input events are delivered, a scene the object
    owns has at least one texture: a load puts the placeholder texture in
    when the factory returned none, and nothing but a load replaces the
    scene. *)
Theorem owned_scene_always_has_a_texture (events : list HostEvent) :
  forall s s' : RayTracer,
    sceneTextured s ->
    final_state (Deliver events s) = Some s' ->
    sceneTextured s'.
Proof.
  induction events as [ | ev rest IH]; intros s s' Htex Hfin.
  - simpl in Hfin. injection Hfin as <-. exact Htex.
  - simpl in Hfin.
    assert (Hstep : forall s1, final_state (Dispatch ev s) = Some s1 -> sceneTextured s1).
    { intros s1 H1.
      destruct ev as [inp | key scancode action mods | xpos ypos | button action mods];
        simpl in H1.
      - destruct (sceneChanged s) eqn:Hsc.
        + exact (DrawFrame_sceneChange_textured inp s s1 Hsc H1).
        + pose proof (DrawFrame_steady_keeps_sceneState inp s s1 Hsc H1) as Hk.
          unfold sceneState in Hk. injection Hk as _ Hscene _.
          unfold sceneTextured in *. rewrite Hscene. exact Htex.
      - pose proof (OnKey_keeps_renderState _ _ _ _ _ _ H1) as Hk.
        unfold renderState in Hk. injection Hk as _ Hscene _.
        unfold sceneTextured in *. rewrite Hscene. exact Htex.
      - pose proof (OnCursorPosition_keeps_renderState _ _ _ _ H1) as Hk.
        unfold renderState in Hk. injection Hk as _ Hscene _.
        unfold sceneTextured in *. rewrite Hscene. exact Htex.
      - pose proof (OnMouseButton_keeps_renderState _ _ _ _ _ H1) as Hk.
        unfold renderState in Hk. injection Hk as _ Hscene _.
        unfold sceneTextured in *. rewrite Hscene. exact Htex. }
    destruct (bind_final _ _ _ _ Hfin) as [(a & s1 & E1 & E2) | (e & E1)].
    + apply (IH s1 s'); [ | exact E2]. apply Hstep. rewrite E1. reflexivity.
    + apply Hstep. rewrite E1. reflexivity.
Qed.

(** X8.  [OnDeviceSet] loads the scene the settings ask for and then builds
    the acceleration structures, in this order; it has a defined outcome
    exactly when the requested index is inside the registry.  Afterwards the
    active index agrees with the requested one, so the first frame is not a
    scene-change frame, and a reset is pending, so that frame starts the
    accumulation from zero. *)
Theorem OnDeviceSet_prepares_first_frame (s : RayTracer) :
  (requestedSceneExists s ->
   exists s',
     OnDeviceSet s = Done tt s' /\
     newCalls s s' [Assets_Scene_new; CreateAccelerationStructures] /\
     sceneChanged s' = false /\
     needsAccumulationReset s' = true /\
     sceneTextured s') /\
  (~ requestedSceneExists s -> OnDeviceSet s = Undefined s).
Proof.
  unfold requestedSceneExists. split.
  - intros Hin. destruct (nth_error_exists _ _ Hin) as ((name & create) & E).
    unfold OnDeviceSet, LoadScene, call, bind, get, modify, newCalls, sceneChanged,
      needsAccumulationReset, sceneTextured. rewrite E.
    destruct (create (cameraInitialSate_ s)) as ((models & textures) & init). simpl.
    eexists. split; [reflexivity | ]. simpl. rewrite <- app_assoc. simpl.
    split; [reflexivity | ]. split; [rewrite Z.eqb_refl; reflexivity | ].
    split; [reflexivity | ]. destruct textures; discriminate.
  - intros Hout.
    assert (E : nth_error AllScenes (Z.to_nat (u32 (SceneIndex (userSettings_ s)))) = None)
      by (apply nth_error_None; lia).
    unfold OnDeviceSet, LoadScene, bind, get, undefined. rewrite E. reflexivity.
Qed.

(** X9.  The frame after a scene-change frame starts a new accumulation,
    whatever had been accumulated before the switch: it is not a scene-change
    frame itself, and it ends with [numberOfSamples_ = clamp(Max - 0, 0,
    NumberOfSamples)] and a total equal to that amount. *)
Theorem accumulation_restarts_after_scene_change (inp1 inp2 : FrameInput)
  (s s1 s2 : RayTracer) :
  sceneChanged s = true ->
  final_state (DrawFrame inp1 s) = Some s1 ->
  final_state (DrawFrame inp2 s1) = Some s2 ->
  let n := glm_clamp (sub32 (MaxNumberOfSamples (userSettings_ s1)) 0) 0
             (NumberOfSamples (userSettings_ s1)) in
  sceneChanged s1 = false /\
  numberOfSamples_ s2 = n /\
  totalNumberOfSamples_ s2 = add32 0 n.
Proof.
  intros Hsc H1 H2.
  destruct (lt_dec (Z.to_nat (u32 (SceneIndex (userSettings_ s))))
              (List.length AllScenes)) as [Hin | Hout].
  - destruct (DrawFrame_sceneChange_defined inp1 s Hsc Hin)
      as (s1' & Hend & _ & _ & _ & _ & Hflag & Hidx & Hreq & _).
    assert (s1' = s1).
    { destruct Hend as [E | (e & E)]; rewrite E in H1; simpl in H1; congruence. }
    subst s1'.
    assert (Hsc1 : sceneChanged s1 = false).
    { unfold sceneChanged. rewrite Hidx, Hreq, Z.eqb_refl. reflexivity. }
    assert (Hneed : needsAccumulationReset s1 = true).
    { unfold needsAccumulationReset. rewrite Hflag. reflexivity. }
    pose proof (DrawFrame_steady_final inp2 s1 s2 Hsc1 H2) as Hfin.
    cbv zeta in Hfin. rewrite Hneed in Hfin. cbv zeta.
    split; [exact Hsc1 | exact Hfin].
  - rewrite (DrawFrame_sceneChange_no_final inp1 s Hsc Hout) in H1. discriminate.
Qed.

End Scenes.

(** A run that switches scene and then draws: the new scene came without
    texture and owns the placeholder. *)
Lemma owned_scene_always_has_a_texture_example :
  exists s',
    Deliver [FrameEvent (frameAt 1); KeyEvent GLFW_KEY_W 0 GLFW_PRESS 0;
             FrameEvent (frameAt 2)] sceneSwitchState = Done tt s' /\
    sceneTextured s' /\
    scene_ s' = Some (@mkScene (exampleCollaborators ["Cube"; "Cornell"]%string)
                        ["Cornell"%string] ["../assets/textures/white.png"%string]).
Proof.
  eexists. split; [vm_compute; reflexivity | ].
  split; [ | reflexivity].
  apply (@owned_scene_always_has_a_texture (exampleCollaborators ["Cube"; "Cornell"]%string)
           [FrameEvent (frameAt 1); KeyEvent GLFW_KEY_W 0 GLFW_PRESS 0;
            FrameEvent (frameAt 2)] sceneSwitchState).
  - simpl. discriminate.
  - vm_compute. reflexivity.
Defined.

(** Device set with the second of two scenes requested. *)
Lemma OnDeviceSet_prepares_first_frame_example :
  exists s',
    OnDeviceSet beforeDeviceSet = Done tt s' /\
    sceneIndex_ s' = 1 /\
    sceneChanged s' = false /\
    needsAccumulationReset s' = true.
Proof.
  destruct (proj1 (@OnDeviceSet_prepares_first_frame
                     (exampleCollaborators ["Cube"; "Cornell"]%string) beforeDeviceSet))
    as (s' & Hrun & _ & Hsc & Hneed & _).
  - vm_compute. lia.
  - exists s'. split; [exact Hrun | ]. split; [ | split; assumption].
    revert Hrun. vm_compute. intros E. injection E as <-. reflexivity.
Defined.

(** Fifty samples before the switch, ten after the first frame in the new
    scene. *)
Lemma accumulation_restarts_after_scene_change_example :
  totalNumberOfSamples_ sceneSwitchState = 50 /\
  DrawFrame (frameAt 1) sceneSwitchState = Done tt sceneSwitchedState /\
  totalNumberOfSamples_ sceneSwitchedState = 50 /\
  exists s2,
    DrawFrame (frameAt 2) sceneSwitchedState = Done tt s2 /\
    numberOfSamples_ s2 = 10 /\
    totalNumberOfSamples_ s2 = 10.
Proof.
  split; [reflexivity | ]. split; [vm_compute; reflexivity | ].
  split; [vm_compute; reflexivity | ].
  eexists. split; [vm_compute; reflexivity | ].
  apply (@accumulation_restarts_after_scene_change
           (exampleCollaborators ["Cube"; "Cornell"]%string)
           (frameAt 1) (frameAt 2) sceneSwitchState sceneSwitchedState).
  - reflexivity.
  - vm_compute. reflexivity.
  - vm_compute. reflexivity.
Defined.

(** ** Invariants of whole runs *)

Section Maintained.

Context `{Collab : Collaborators}.

Lemma maintains_ret {A} (I : RayTracer -> Prop) (a : A) : maintains I (ret a).
Proof. intros s s' HI E. simpl in E. injection E as <-. exact HI. Qed.

Lemma maintains_get (I : RayTracer -> Prop) : maintains I get.
Proof. intros s s' HI E. simpl in E. injection E as <-. exact HI. Qed.

Lemma maintains_undefined {A} (I : RayTracer -> Prop) :
  maintains I (@undefined RayTracer A).
Proof. intros s s' HI E. discriminate. Qed.

Lemma maintains_throw {A} (I : RayTracer -> Prop) e : maintains I (@throw RayTracer A e).
Proof. intros s s' HI E. simpl in E. injection E as <-. exact HI. Qed.

Lemma maintains_modify (I : RayTracer -> Prop) (g : RayTracer -> RayTracer) :
  (forall s, I s -> I (g s)) -> maintains I (modify g).
Proof. intros Hg s s' HI E. simpl in E. injection E as <-. apply Hg. exact HI. Qed.

Lemma maintains_bind {A B} (I : RayTracer -> Prop) (m : M RayTracer A)
  (k : A -> M RayTracer B) :
  maintains I m -> (forall a, maintains I (k a)) -> maintains I (bind m k).
Proof.
  intros Hm Hk s s' HI E.
  destruct (bind_final _ _ _ _ E) as [(a & s1 & E1 & E2) | (e & E1)].
  - apply (Hk a s1 s'); [ | exact E2]. apply (Hm s s1 HI). rewrite E1. reflexivity.
  - apply (Hm s s' HI). rewrite E1. reflexivity.
Qed.

Lemma maintains_when (I : RayTracer -> Prop) (b : bool) (m : M RayTracer unit) :
  maintains I m -> maintains I (when b m).
Proof. intros Hm. destruct b; simpl; [exact Hm | apply maintains_ret]. Qed.

End Maintained.

Ltac maintains_step :=
  first
    [ apply maintains_ret | apply maintains_get | apply maintains_undefined
    | apply maintains_throw
    | apply maintains_modify; let H := fresh in intros ? H; exact H
    | apply maintains_when
    | apply maintains_bind; [ | intros ]
    | match goal with
      | |- maintains _ (if ?b then _ else _) => destruct b
      | |- maintains _ (match ?x with _ => _ end) => destruct x
      end ].

Section SampleBudgetInvariant.

Context `{Collab : Collaborators}.

Lemma UpdateSampleCount_maintains_budget : maintains withinBudget UpdateSampleCount.
Proof.
  intros s s' ((Hn & Hm) & Ht) E.
  unfold UpdateSampleCount, bind, modify in E. simpl in E. injection E as <-.
  unfold withinBudget, sampleSettingsTyped. simpl.
  split; [split; assumption | ].
  unfold samplesForFrame, sub32, add32.
  rewrite (u32_small (MaxNumberOfSamples (userSettings_ s) - totalNumberOfSamples_ s))
    by lia.
  unfold glm_clamp. rewrite u32_small by lia. lia.
Qed.

Lemma CheckAccumulationReset_maintains_budget :
  maintains withinBudget CheckAccumulationReset.
Proof.
  unfold CheckAccumulationReset.
  apply maintains_bind; [apply maintains_get | intros s0].
  apply maintains_when.
  apply maintains_bind; [ | intros; maintains_step].
  apply maintains_modify. intros s ((Hn & Hm) & Ht).
  unfold withinBudget, sampleSettingsTyped. simpl. lia.
Qed.

Lemma CheckSceneLimits_maintains_budget now :
  maintains withinBudget (CheckSceneLimits now).
Proof.
  intros s s' HI.
  unfold CheckSceneLimits, Window_Close_, print, call, when, bind, get, modify, ret,
    undefined.
  split_branches; intros E; try discriminate; injection E as <-; exact HI.
Qed.

Lemma Render_maintains_budget inp :
  keepsSampleMaximum (OverlayEdit inp) ->
  maintains withinBudget (Render inp).
Proof.
  intros Hedit.
  unfold Render, CheckAndUpdateBenchmarkState, InitialiseSceneTimers, ReportFrameRate,
    print, call.
  repeat first
    [ apply CheckSceneLimits_maintains_budget
    | maintains_step
    | apply maintains_modify; intros s ((Hn & Hm) & Ht);
      unfold withinBudget, sampleSettingsTyped; simpl;
      destruct (Hedit (userSettings_ s)) as (Emax & Ens);
      rewrite Emax; auto ].
Qed.

Lemma DrawFrame_maintains_budget inp :
  keepsSampleMaximum (OverlayEdit inp) ->
  maintains withinBudget (DrawFrame inp).
Proof.
  intros Hedit. unfold DrawFrame.
  apply maintains_bind; [apply maintains_get | intros s0].
  destruct (sceneChanged s0).
  - unfold LoadScene, DeleteSwapChain, CreateSwapChain, CheckFramebufferSize, call.
    repeat maintains_step.
  - apply maintains_bind; [apply CheckAccumulationReset_maintains_budget | intros _].
    apply maintains_bind; [maintains_step | intros _].
    apply maintains_bind; [apply UpdateSampleCount_maintains_budget | intros _].
    unfold Application_DrawFrame_, call.
    apply maintains_bind; [maintains_step | intros _].
    apply Render_maintains_budget. exact Hedit.
Qed.

Lemma Dispatch_maintains_budget (ev : HostEvent) :
  keepsSampleMaximum (editOf ev) ->
  maintains withinBudget (Dispatch ev).
Proof.
  intros Hedit.
  destruct ev as [inp | key scancode action mods | xpos ypos | button action mods]; simpl.
  - apply DrawFrame_maintains_budget. exact Hedit.
  - unfold OnKey, Window_Close_, call. repeat maintains_step.
  - unfold OnCursorPosition. repeat maintains_step.
  - unfold OnMouseButton. repeat maintains_step.
Qed.

(** X10.  As long as the overlay does not edit the sample maximum, no
    sequence of frames, scene changes, resets and input events takes the
    accumulated total above it: started with [0 <= total <= Max], every state
    a run ends in has [0 <= total <= Max] again. *)
Theorem total_stays_within_maximum (events : list HostEvent) :
  forall s s' : RayTracer,
    Forall (fun ev => keepsSampleMaximum (editOf ev)) events ->
    withinBudget s ->
    final_state (Deliver events s) = Some s' ->
    withinBudget s'.
Proof.
  induction events as [ | ev rest IH]; intros s s' Hedits Hin Hfin.
  - simpl in Hfin. injection Hfin as <-. exact Hin.
  - inversion Hedits as [ | ev' rest' Hev Hrest]; subst.
    simpl in Hfin.
    destruct (bind_final _ _ _ _ Hfin) as [(a & s1 & E1 & E2) | (e & E1)].
    + apply (IH s1 s' Hrest); [ | exact E2].
      apply (Dispatch_maintains_budget ev Hev s s1 Hin). rewrite E1. reflexivity.
    + apply (Dispatch_maintains_budget ev Hev s s' Hin). rewrite E1. reflexivity.
Qed.

End SampleBudgetInvariant.

(** Thirteen frames with key and mouse events in between, from an empty
    accumulation with a maximum of 100. *)
Lemma total_stays_within_maximum_example :
  exists s',
    Deliver (KeyEvent GLFW_KEY_F1 0 GLFW_PRESS 0
             :: map FrameEvent (framesEvery 1 6 0)
             ++ MouseButtonEvent 0 1 0
             :: map FrameEvent (framesEvery 1 7 6))
      (exampleState ["Cube"%string] (exampleSettings false 5 100 10) 0) = Done tt s' /\
    withinBudget s' /\
    totalNumberOfSamples_ s' = 100.
Proof.
  eexists. split; [vm_compute; reflexivity | ].
  split; [ | reflexivity].
  apply (@total_stays_within_maximum (exampleCollaborators ["Cube"%string])
           (KeyEvent GLFW_KEY_F1 0 GLFW_PRESS 0
            :: map FrameEvent (framesEvery 1 6 0)
            ++ MouseButtonEvent 0 1 0
            :: map FrameEvent (framesEvery 1 7 6))
           (exampleState ["Cube"%string] (exampleSettings false 5 100 10) 0)).
  - simpl.
    repeat (apply Forall_cons;
            [intros u; split; [reflexivity | intros H; exact H] | ]).
    apply Forall_nil.
  - unfold withinBudget, sampleSettingsTyped. simpl. lia.
  - vm_compute. reflexivity.
Defined.

(** ** Frames outside benchmark mode *)

Section OutsideBenchmark.

Context `{Collab : Collaborators}.

Lemma Render_outside_benchmark inp (s : RayTracer) :
  Benchmark (userSettings_ s) = false ->
  Render inp s =
  match userInterface_ s with
  | None =>
      Undefined (set_calls_ (calls_ s ++ [pipelineCall (userSettings_ s)])
                   (afterCameraUpdate inp s))
  | Some _ =>
      let s1 := afterCameraUpdate inp s in
      let s2 := set_calls_ (calls_ s ++ [pipelineCall (userSettings_ s)]) s1 in
      Done tt
        (set_userSettings_ (OverlayEdit inp (userSettings_ s))
           (set_calls_
              (calls_ s2 ++
               [UserInterface_Render
                  (frameStatistics inp (dsub (TimeAtRender inp) (time_ s)) s2)])
              s2))
  end.
Proof.
  intros Hb.
  unfold Render, CheckAndUpdateBenchmarkState, call, bind, get, modify, ret, undefined,
    pipelineCall.
  simpl. rewrite Hb. simpl.
  destruct (userInterface_ s); reflexivity.
Qed.

Lemma DrawFrame_sceneChange_quiet inp (s s' : RayTracer) :
  sceneChanged s = true ->
  final_state (DrawFrame inp s) = Some s' ->
  console_ s' = console_ s /\
  window_ s' = window_ s /\
  closeRequests (calls_ s') = closeRequests (calls_ s).
Proof.
  intros Hsc.
  unfold DrawFrame, LoadScene, DeleteSwapChain, CreateSwapChain, CheckFramebufferSize,
    call, bind, get, modify, throw, ret, undefined.
  rewrite Hsc. simpl.
  destruct (nth_error AllScenes _) as [(name & create) | ]; [ | discriminate].
  destruct (create (cameraInitialSate_ s)) as ((models & textures) & init).
  simpl.
  match goal with
  | |- context [if ?c then _ else _] => destruct c
  end; simpl; intros E; injection E as <-; simpl;
    rewrite !closeRequests_app; simpl; repeat split; lia.
Qed.

(** [Render] outside benchmark mode, by its visible effects. *)
Lemma Render_outside_benchmark_effects inp (s : RayTracer) ui :
  Benchmark (userSettings_ s) = false ->
  userInterface_ s = Some ui ->
  exists s' stats,
    Render inp s = Done tt s' /\
    calls_ s' = calls_ s ++ [pipelineCall (userSettings_ s); UserInterface_Render stats] /\
    StatFramebufferSize stats = FramebufferSize (window_ s) /\
    TotalSamples stats =
      (if IsRayTraced (userSettings_ s) then totalNumberOfSamples_ s else 0) /\
    userSettings_ s' = OverlayEdit inp (userSettings_ s) /\
    previousSettings_ s' = previousSettings_ s /\
    totalNumberOfSamples_ s' = totalNumberOfSamples_ s /\
    time_ s' = TimeAtRender inp /\
    console_ s' = console_ s /\
    window_ s' = window_ s.
Proof.
  intros Hb Hui. rewrite (Render_outside_benchmark inp s Hb), Hui.
  eexists. eexists. split; [reflexivity | ].
  cbv zeta. unfold frameStatistics, afterCameraUpdate.
  cbn [calls_ set_calls_ set_userSettings_ set_resetAccumulation_ set_time_
       set_modelViewController_ userSettings_ previousSettings_ totalNumberOfSamples_
       time_ console_ window_ StatFramebufferSize TotalSamples].
  rewrite <- app_assoc. repeat split; reflexivity.
Qed.

(** X12.  A frame without scene change outside benchmark mode, the overlay
    being in place, always ends normally.  It makes exactly three calls: the
    base class's frame, then the ray-tracing or the rasterising render
    according to [IsRayTraced] as it stood when the frame began, then the
    overlay's render, whose statistics carry the framebuffer size and, when
    ray traced, the total including this frame's samples (0 otherwise).
    Afterwards the settings are the overlay's edit of the settings the frame
    began with, the snapshot is those settings before the edit, and the clock
    is the reading taken in [Render].  Without an overlay the frame has no
    defined outcome. *)
Theorem steady_frame_outside_benchmark inp (s : RayTracer) :
  sceneChanged s = false ->
  Benchmark (userSettings_ s) = false ->
  (forall ui, userInterface_ s = Some ui ->
     exists s' stats,
       DrawFrame inp s = Done tt s' /\
       newCalls s s' [Application_DrawFrame; pipelineCall (userSettings_ s);
                      UserInterface_Render stats] /\
       StatFramebufferSize stats = FramebufferSize (window_ s) /\
       TotalSamples stats =
         (if IsRayTraced (userSettings_ s) then totalNumberOfSamples_ s' else 0) /\
       userSettings_ s' = OverlayEdit inp (userSettings_ s) /\
       previousSettings_ s' = userSettings_ s /\
       time_ s' = TimeAtRender inp) /\
  (userInterface_ s = None -> exists s', DrawFrame inp s = Undefined s').
Proof.
  intros Hsc Hb.
  destruct (afterSampleCount_fields s) as (Hu & Hp & Hui' & Hw & Hc & Hcons & Ht).
  rewrite (DrawFrame_steady_eq inp s Hsc), Application_DrawFrame_eq.
  set (s2 := set_calls_ (calls_ (afterSampleCount s) ++ [Application_DrawFrame])
               (afterSampleCount s)).
  assert (Hb2 : Benchmark (userSettings_ s2) = false)
    by (subst s2; cbn [userSettings_ set_calls_]; rewrite Hu; exact Hb).
  split.
  - intros ui Hui.
    assert (Hui2 : userInterface_ s2 = Some ui)
      by (subst s2; cbn [userInterface_ set_calls_]; rewrite Hui'; exact Hui).
    destruct (Render_outside_benchmark_effects inp s2 ui Hb2 Hui2)
      as (s' & stats & Hrun & Hcalls & Hfb & Hts & Hus & Hps & Htot & Htime & _).
    exists s', stats. split; [exact Hrun | ].
    unfold newCalls. rewrite Hcalls, Hfb, Hts, Hus, Hps, Htot, Htime.
    subst s2.
    cbn [calls_ userSettings_ previousSettings_ window_ totalNumberOfSamples_ set_calls_].
    rewrite Hc, Hu, Hp, Hw, <- app_assoc. simpl app.
    repeat split; reflexivity.
  - intros Hui.
    assert (Hui2 : userInterface_ s2 = None)
      by (subst s2; cbn [userInterface_ set_calls_]; rewrite Hui'; exact Hui).
    rewrite (Render_outside_benchmark inp s2 Hb2), Hui2. eexists. reflexivity.
Qed.

(** X11.  Outside benchmark mode a frame of either kind that ends has written
    nothing to the console, has not asked the window to close and has left
    the window as it was. *)
Theorem frames_outside_benchmark_are_silent inp (s s' : RayTracer) :
  Benchmark (userSettings_ s) = false ->
  final_state (DrawFrame inp s) = Some s' ->
  console_ s' = console_ s /\
  window_ s' = window_ s /\
  closeRequests (calls_ s') = closeRequests (calls_ s).
Proof.
  intros Hb Hfin.
  destruct (sceneChanged s) eqn:Hsc.
  - exact (DrawFrame_sceneChange_quiet inp s s' Hsc Hfin).
  - destruct (afterSampleCount_fields s) as (Hu & _ & Hui' & Hw & Hc & Hcons & _).
    rewrite (DrawFrame_steady_eq inp s Hsc), Application_DrawFrame_eq in Hfin.
    set (s2 := set_calls_ (calls_ (afterSampleCount s) ++ [Application_DrawFrame])
                 (afterSampleCount s)) in Hfin.
    assert (Hb2 : Benchmark (userSettings_ s2) = false)
    by (subst s2; cbn [userSettings_ set_calls_]; rewrite Hu; exact Hb).
    destruct (userInterface_ s2) as [ui | ] eqn:Hui2.
    + destruct (Render_outside_benchmark_effects inp s2 ui Hb2 Hui2)
        as (s3 & stats & Hrun & Hcalls & _ & _ & _ & _ & _ & _ & Hcons3 & Hw3).
      rewrite Hrun in Hfin. simpl in Hfin. injection Hfin as <-.
      rewrite Hcons3, Hw3, Hcalls. subst s2.
      cbn [calls_ console_ window_ userSettings_ set_calls_].
      rewrite Hc, Hcons, Hw, Hu.
      rewrite !closeRequests_app. unfold pipelineCall.
      destruct (IsRayTraced _); simpl; repeat split; lia.
    + rewrite (Render_outside_benchmark inp s2 Hb2), Hui2 in Hfin. discriminate.
Qed.

End OutsideBenchmark.

(** A steady frame outside benchmark mode. *)
Lemma steady_frame_outside_benchmark_example :
  exists s' stats,
    DrawFrame (frameAt 1) pendingResetState = Done tt s' /\
    calls_ s' = [Application_DrawFrame; RayTracing_Application_Render;
                 UserInterface_Render stats] /\
    TotalSamples stats = 10.
Proof.
  destruct (proj1 (@steady_frame_outside_benchmark (exampleCollaborators ["Cube"%string])
                     (frameAt 1) pendingResetState eq_refl eq_refl)
              (mkUserInterface false false) eq_refl)
    as (s' & stats & Hrun & Hcalls & _ & Hts & _).
  exists s', stats. split; [exact Hrun | ]. split; [exact Hcalls | ].
  rewrite Hts. simpl.
  assert (Hfin : final_state (DrawFrame (frameAt 1) pendingResetState) = Some s')
    by (rewrite Hrun; reflexivity).
  exact (proj2 (DrawFrame_steady_final (frameAt 1) pendingResetState s' eq_refl Hfin)).
Defined.

(** The same frame is silent. *)
Lemma frames_outside_benchmark_are_silent_example :
  exists s',
    DrawFrame (frameAt 1) pendingResetState = Done tt s' /\
    console_ s' = [] /\
    ShouldClose (window_ s') = false /\
    closeRequests (calls_ s') = 0%nat.
Proof.
  eexists. split; [vm_compute; reflexivity | ].
  destruct (@frames_outside_benchmark_are_silent (exampleCollaborators ["Cube"%string])
              (frameAt 1) pendingResetState _ eq_refl
              ltac:(vm_compute; reflexivity)) as (Hc & Hw & Hr).
  rewrite Hc, Hw, Hr. repeat split; reflexivity.
Defined.

(** ** Frames of a benchmark *)

Section BenchmarkFrames.

Context `{Collab : Collaborators}.

(** X15.  A benchmark frame that takes no sample moves on.  When a frame
    without scene change in benchmark mode computes a sample count of zero
    for itself (the budget of the scene is used up, or the per-frame count is
    zero) and ends normally, the settings it leaves are the overlay's edit of
    the settings it began with, the requested scene index raised by one; the
    close flag of the window is raised exactly when it was already or the
    code's closing test holds; and, for an overlay that leaves the scene
    index alone, the requested index is one more than before and no longer
    the active one, so that the next frame is a scene-change frame. *)
Theorem benchmark_frame_without_samples_moves_on inp (s s' : RayTracer) :
  sceneChanged s = false ->
  Benchmark (userSettings_ s) = true ->
  numberOfSamples_ (afterSampleCount s) = 0 ->
  (forall u, SceneIndex (OverlayEdit inp u) = SceneIndex u) ->
  DrawFrame inp s = Done tt s' ->
  userSettings_ s' =
    OverlayEdit inp (with_SceneIndex (SceneIndex (userSettings_ s) + 1) (userSettings_ s)) /\
  ShouldClose (window_ s') =
    ShouldClose (window_ s) || closesAfterScene (userSettings_ s) /\
  SceneIndex (userSettings_ s') = SceneIndex (userSettings_ s) + 1 /\
  sceneIndex_ s' = sceneIndex_ s /\
  sceneChanged s' = true.
Proof.
  intros Hsc Hb Hzero Hedit Hrun.
  destruct (benchmark_frame_stages inp s s' Hsc Hb Hrun) as (s1 & s2 & H1 & H2 & H3).
  destruct (beforeBenchmarkCheck_fields inp s) as (Hu0 & Hi0 & Hw0 & Hn0 & _).
  remember (beforeBenchmarkCheck inp s) as s0 eqn:Hs0. clear Hs0.
  assert (Hk : limitInputs s1 = limitInputs s0).
  { apply (BenchmarkTimers_keeps_limitInputs (time_ s)). rewrite H1. reflexivity. }
  unfold limitInputs in Hk. injection Hk as Hu1 _ Hw1 Hn1.
  assert (Hi1 : sceneIndex_ s1 = sceneIndex_ s0).
  { apply (BenchmarkTimers_keeps_sceneIndex (time_ s)). rewrite H1. reflexivity. }
  destruct (CheckSceneLimits_sample_limit (TimeAtLimitCheck inp) s1 s2)
    as (Hu2 & Hi2 & Hw2); [congruence | exact H2 | ].
  destruct (RenderTail_effects inp (time_ s) s2 s' H3) as (Hu3 & Hi3 & Hw3 & _).
  assert (Husers : userSettings_ s' =
            OverlayEdit inp
              (with_SceneIndex (SceneIndex (userSettings_ s) + 1) (userSettings_ s)))
    by (rewrite Hu3, Hu2, Hu1, Hu0; reflexivity).
  assert (Hindex : SceneIndex (userSettings_ s') = SceneIndex (userSettings_ s) + 1)
    by (rewrite Husers, Hedit; reflexivity).
  assert (Hactive : sceneIndex_ s' = sceneIndex_ s) by congruence.
  split; [exact Husers | ].
  split; [rewrite Hw3, Hw2, Hw1, Hu1, Hw0, Hu0; reflexivity | ].
  split; [exact Hindex | ]. split; [exact Hactive | ].
  unfold sceneChanged in *. rewrite Hactive, Hindex.
  apply negb_false_iff, Z.eqb_eq in Hsc. rewrite Hsc.
  apply negb_true_iff, Z.eqb_neq. intros E. symmetry in E.
  exact (u32_succ_neq _ E).
Qed.

(** X16.  The scene timer of a benchmark starts once per scene.  On a frame
    without scene change in benchmark mode that ends normally, the frame
    count of the period being a [uint32_t] below its largest value: when no
    frame was counted yet (as a scene load leaves it), the scene's start time
    becomes the clock reading taken in [Render] and the count becomes one;
    when frames were counted, the scene's start time is left as it was,
    whether or not a frame-rate line is written, and the count stays
    positive, so that no later frame of the scene restarts the timer. *)
Theorem scene_timer_starts_once_per_scene inp (s s' : RayTracer) :
  sceneChanged s = false ->
  Benchmark (userSettings_ s) = true ->
  0 <= periodTotalFrames_ s < 2 ^ 32 - 1 ->
  DrawFrame inp s = Done tt s' ->
  (periodTotalFrames_ s = 0 ->
   sceneInitialTime_ s' = TimeAtRender inp /\ periodTotalFrames_ s' = 1) /\
  (periodTotalFrames_ s <> 0 ->
   sceneInitialTime_ s' = sceneInitialTime_ s /\ 0 < periodTotalFrames_ s' < 2 ^ 32).
Proof.
  intros Hsc Hb Hrange Hrun.
  destruct (benchmark_frame_stages inp s s' Hsc Hb Hrun) as (s1 & s2 & H1 & H2 & H3).
  destruct (beforeBenchmarkCheck_fields inp s) as (_ & _ & _ & _ & Ht0 & Hclock).
  remember (beforeBenchmarkCheck inp s) as s0 eqn:Hs0. clear Hs0.
  unfold sceneTimer in Ht0. injection Ht0 as Hstart0 Hframes0.
  assert (Ht2 : sceneTimer s2 = sceneTimer s1).
  { apply (CheckSceneLimits_keeps_sceneTimer (TimeAtLimitCheck inp)).
    rewrite H2. reflexivity. }
  destruct (RenderTail_effects inp (time_ s) s2 s' H3) as (_ & _ & _ & Ht3).
  rewrite Ht2 in Ht3. unfold sceneTimer in Ht3. injection Ht3 as Hstart3 Hframes3.
  destruct (BenchmarkTimers_sceneTimer (time_ s) s0 s1)
    as (Hfirst & Hlater); [rewrite Hframes0; exact Hrange | exact H1 | ].
  rewrite Hframes0, Hstart0, Hclock in *. rewrite Hstart3, Hframes3.
  split; assumption.
Qed.

End BenchmarkFrames.

(** The first scene of two has used up its budget of 100 samples: the frame
    asks for the second scene and leaves the window open. *)
Lemma benchmark_frame_without_samples_moves_on_example :
  exists s',
    DrawFrame (frameAt 1) convergedBenchmarkState = Done tt s' /\
    SceneIndex (userSettings_ s') = 1 /\
    ShouldClose (window_ s') = false /\
    sceneChanged s' = true.
Proof.
  eexists. split; [vm_compute; reflexivity | ].
  destruct (@benchmark_frame_without_samples_moves_on
              (exampleCollaborators ["Cube"; "Cornell"]%string)
              (frameAt 1) convergedBenchmarkState _
              ltac:(reflexivity) ltac:(reflexivity) ltac:(reflexivity)
              ltac:(intros u; reflexivity) ltac:(vm_compute; reflexivity))
    as (_ & Hclose & Hindex & _ & Hchanged).
  split; [exact Hindex | ]. split; [exact Hclose | exact Hchanged].
Defined.

(** The first frame of a benchmark starts the scene timer at its clock
    reading. *)
Lemma scene_timer_starts_once_per_scene_example :
  exists s',
    DrawFrame (frameAt 3) longBenchmarkState = Done tt s' /\
    sceneInitialTime_ s' = double_of_Z 3 /\
    periodTotalFrames_ s' = 1.
Proof.
  eexists. split; [vm_compute; reflexivity | ].
  apply (proj1 (@scene_timer_starts_once_per_scene
                  (exampleCollaborators ["Cube"%string])
                  (frameAt 3) longBenchmarkState _
                  ltac:(reflexivity) ltac:(reflexivity) ltac:(simpl; lia)
                  ltac:(vm_compute; reflexivity))).
  reflexivity.
Defined.
